(** * mongonet: response framing and server lifecycle (server.go)

    A shallow embedding of [server.go]: the three respond methods of
    [Session] and the lifecycle methods [Run] and [Close] of [Server].

    Go values are modelled as follows.
    - [int32]/[int64]/[int] header fields and counters are [Z].
    - An [error] is a record carrying its message and, optionally, the
      document produced by the error-to-document capability; a possibly-nil
      error is an [option error].
    - An [interface{}] argument is a value of the tagged union [iface].
    - [bson.D] is a list of [DocElem] records (order and duplicates matter).
    - The document codec ([SimpleBSON], [SimpleBSONConvert],
      [SimpleBSONEmpty]) lives outside [server.go] and is an interface of
      the development (a type class).
    - The connection is the sequence of frames written to it so far,
      together with its pending I/O failure, if any.
    - Channels are records with a buffer, a capacity and a closed flag;
      the blocking methods run in a small state monad whose outcomes are
      "returned", "blocked" and "panicked".

    Logging calls have no effect on connections, channels or return values
    and are left out, and so are [Session.Run], [Session.ReadMessage] and
    [Server.NewLogger]. *)

From Stdlib Require Import ZArith String Ascii List Bool Arith Lia DecimalString.
Import ListNotations.

Local Open Scope string_scope.
Local Open Scope Z_scope.

Set Implicit Arguments.

(** ** Dynamic values, documents and errors *)

(** A Go [interface{}] value, by dynamic type.  [IOther ty shown] stands
    for a value of any other dynamic type (another number type, a slice, a
    map, a struct, a pointer, a channel, ...): [ty] is the name of its type
    and [shown] the text that [fmt] prints for it under the verb [%t], for
    instance ["%!t(float64=1.5)"] for a [float64] and ["[%!t(string=a)]"]
    for the slice [[]string{"a"}], which [fmt] formats element by
    element. *)
Inductive iface : Type :=
| INil
| IString (s : string)
| IInt (n : Z)
| IBool (b : bool)
| IOther (ty shown : string).

(** [bson.DocElem] and [bson.D]. *)
Record DocElem : Type := mkDocElem { Name : string; Value : iface }.

Definition bson_D : Type := list DocElem.

(** Modelled from the spec: the error values.  Every error has a message
    ([Error()]); the type [MongoError] (declared outside server.go) is the
    optional capability to produce an equivalent document ([ToBSON()]), so
    the type test [err.(MongoError)] succeeds exactly when [ToBSON] is
    [Some]. *)
Record error : Type := mkError { Error : string; ToBSON : option bson_D }.

Definition errors_New (msg : string) : error :=
  {| Error := msg; ToBSON := None |}.

Definition ErrUnknownOpcode : error := errors_New "unknown opcode".

Inductive result (A : Type) : Type :=
| Ok (a : A)
| Err (e : error).
Arguments Ok {A} a.
Arguments Err {A} e.

(** ** Formatting ([fmt]) *)

Definition decimal (n : Z) : string := NilZero.string_of_int (Z.to_int n).

(** The verb [%d] applied to an [int]. *)
Definition verb_d (n : Z) : string := decimal n.

(** The verb [%t] applied to an arbitrary value: booleans print as words,
    nil, strings and integers as a bad-verb notice, and a value of any other
    type as [fmt] prints it, which is the text the value carries. *)
Definition verb_t (v : iface) : string :=
  match v with
  | IBool true => "true"
  | IBool false => "false"
  | INil => "%!t(<nil>)"
  | IString s => "%!t(string=" ++ s ++ ")"
  | IInt n => "%!t(int=" ++ decimal n ++ ")"
  | IOther _ shown => shown
  end.

(** The verb [%s] applied to a variable of static type [error]: the message
    of a non-nil error, and the nil notice for a nil one. *)
Definition verb_s_error (e : option error) : string :=
  match e with
  | Some e => Error e
  | None => "%!s(<nil>)"
  end.

Definition fmt_Errorf (msg : string) : error := errors_New msg.

(** ** Opcodes and message headers *)

(** Modelled from the spec: the opcode constants are integer tags declared
    outside server.go; the values are those of the MongoDB wire protocol. *)
Definition OP_REPLY : Z := 1.
Definition OP_UPDATE : Z := 2001.
Definition OP_INSERT : Z := 2002.
Definition OP_QUERY : Z := 2004.
Definition OP_GET_MORE : Z := 2005.
Definition OP_DELETE : Z := 2006.
Definition OP_KILL_CURSORS : Z := 2007.
Definition OP_COMMAND : Z := 2010.
Definition OP_COMMAND_REPLY : Z := 2011.
Definition OP_MSG : Z := 2013.

(** Modelled from the spec: the message header (declared outside
    server.go): payload length, sender-assigned request id, correlation id
    of the request being replied to, opcode, in this order. *)
Record MessageHeader : Type := mkMessageHeader {
  Size : Z;
  RequestID : Z;
  ResponseTo : Z;
  OpCode : Z
}.

(** ** The document codec *)

(** Modelled from the spec: the document codec (declared outside
    server.go) converts an ordered name/value sequence into an opaque
    wire-ready document, or fails, and provides a constant empty
    document. *)
Class DocumentCodec : Type := {
  SimpleBSON : Type;
  SimpleBSONConvert : bson_D -> result SimpleBSON;
  SimpleBSONEmpty : SimpleBSON
}.

Section Framer.

Context {codec : DocumentCodec}.

(** ** Messages *)

Inductive MessageMessageSection : Type :=
| BodySection (Body : SimpleBSON).

Record ReplyMessage : Type := mkReplyMessage {
  Reply_header : MessageHeader;
  Reply_Flags : Z;
  Reply_CursorId : Z;
  Reply_StartingFrom : Z;
  Reply_NumberReturned : Z;
  Reply_Docs : list SimpleBSON
}.

Record CommandReplyMessage : Type := mkCommandReplyMessage {
  CommandReply_header : MessageHeader;
  CommandReply_CommandReply : SimpleBSON;
  CommandReply_Metadata : SimpleBSON;
  CommandReply_OutputDocs : list SimpleBSON
}.

Record MessageMessage : Type := mkMessageMessage {
  Msg_header : MessageHeader;
  Msg_FlagBits : Z;
  Msg_Sections : list MessageMessageSection
}.

(** The [Message] interface.  The three reply kinds are the ones built in
    server.go; of any other message (a query, an insert, a command, ...)
    only the header is observed. *)
Inductive Message : Type :=
| IsReplyMessage (rm : ReplyMessage)
| IsCommandReplyMessage (rm : CommandReplyMessage)
| IsMessageMessage (rm : MessageMessage)
| OtherMessage (h : MessageHeader).

Definition Header (m : Message) : MessageHeader :=
  match m with
  | IsReplyMessage rm => Reply_header rm
  | IsCommandReplyMessage rm => CommandReply_header rm
  | IsMessageMessage rm => Msg_header rm
  | OtherMessage h => h
  end.

(** ** Connections and sessions *)

(** The connection of a session: the frames written so far, oldest first,
    and the I/O error that the next write will meet, if any. *)
Record Conn : Type := mkConn {
  written : list Message;
  writeErr : option error
}.

(** Modelled from the spec: the message serializer [SendMessage] (declared
    outside server.go): one call writes one complete frame, or fails with
    the connection's I/O error and writes nothing. *)
Definition SendMessage (m : Message) (c : Conn) : option error * Conn :=
  match writeErr c with
  | Some e => (Some e, c)
  | None => (None, {| written := (written c ++ [m])%list; writeErr := None |})
  end.

(** [Session]; the back-reference to the server and the logger play no role
    in the respond methods. *)
Record Session : Type := mkSession {
  conn : Conn;
  remoteAddr : string;
  SSLServerName : string
}.

(** ** Session.RespondToCommand *)

Definition RespondToCommand (s : Session) (clientMessage : Message)
    (doc : SimpleBSON) : option error * Conn :=
  let op := OpCode (Header clientMessage) in
  if op =? OP_QUERY then
    let rm := {| Reply_header :=
                   {| Size := 0; RequestID := 17;
                      ResponseTo := RequestID (Header clientMessage);
                      OpCode := OP_REPLY |};
                 Reply_Flags := 0;
                 Reply_CursorId := 0;
                 Reply_StartingFrom := 0;
                 Reply_NumberReturned := 1;
                 Reply_Docs := [doc] |} in
    SendMessage (IsReplyMessage rm) (conn s)
  else if (op =? OP_INSERT) || (op =? OP_UPDATE) || (op =? OP_DELETE) then
    (None, conn s)
  else if op =? OP_COMMAND then
    let rm := {| CommandReply_header :=
                   {| Size := 0; RequestID := 17;
                      ResponseTo := RequestID (Header clientMessage);
                      OpCode := OP_COMMAND_REPLY |};
                 CommandReply_CommandReply := doc;
                 CommandReply_Metadata := SimpleBSONEmpty;
                 CommandReply_OutputDocs := [] |} in
    SendMessage (IsCommandReplyMessage rm) (conn s)
  else if op =? OP_MSG then
    let rm := {| Msg_header :=
                   {| Size := 0; RequestID := 17;
                      ResponseTo := RequestID (Header clientMessage);
                      OpCode := OP_MSG |};
                 Msg_FlagBits := 0;
                 Msg_Sections := [BodySection doc] |} in
    SendMessage (IsMessageMessage rm) (conn s)
  else
    (Some ErrUnknownOpcode, conn s).

(** ** Session.RespondWithError *)

(** The document chosen for the error (the variable [errBSON]). *)
Definition RespondWithError_errBSON (err : option error) : bson_D :=
  match err with
  | None => [ {| Name := "ok"; Value := IInt 1 |} ]
  | Some e =>
      match ToBSON e with
      | Some d => d
      | None => [ {| Name := "ok"; Value := IInt 0 |};
                  {| Name := "errmsg"; Value := IString (Error e) |} ]
      end
  end.

(** The [switch] of [RespondWithError] on the opcode, once the error's
    document has been converted to [doc]. *)
Definition RespondWithError_switch (s : Session) (clientMessage : Message)
    (doc : SimpleBSON) : option error * Conn :=
  let op := OpCode (Header clientMessage) in
  if (op =? OP_QUERY) || (op =? OP_GET_MORE) then
    let rm := {| Reply_header :=
                   {| Size := 0; RequestID := 17;
                      ResponseTo := RequestID (Header clientMessage);
                      OpCode := OP_REPLY |};
                 Reply_Flags := 0;
                 Reply_CursorId := 0;
                 Reply_StartingFrom := 0;
                 Reply_NumberReturned := 1;
                 Reply_Docs := [doc] |} in
    SendMessage (IsReplyMessage rm) (conn s)
  else if (op =? OP_INSERT) || (op =? OP_UPDATE) || (op =? OP_DELETE) then
    (None, conn s)
  else if op =? OP_COMMAND then
    let rm := {| CommandReply_header :=
                   {| Size := 0; RequestID := 17;
                      ResponseTo := RequestID (Header clientMessage);
                      OpCode := OP_COMMAND_REPLY |};
                 CommandReply_CommandReply := doc;
                 CommandReply_Metadata := SimpleBSONEmpty;
                 CommandReply_OutputDocs := [] |} in
    SendMessage (IsCommandReplyMessage rm) (conn s)
  else if op =? OP_MSG then
    let rm := {| Msg_header :=
                   {| Size := 0; RequestID := 17;
                      ResponseTo := RequestID (Header clientMessage);
                      OpCode := OP_MSG |};
                 Msg_FlagBits := 0;
                 Msg_Sections := [BodySection doc] |} in
    SendMessage (IsMessageMessage rm) (conn s)
  else
    (Some ErrUnknownOpcode, conn s).

Definition RespondWithError (s : Session) (clientMessage : Message)
    (err : option error) : option error * Conn :=
  let errBSON := RespondWithError_errBSON err in
  match SimpleBSONConvert errBSON with
  | Err myErr => (Some myErr, conn s)
  | Ok doc => RespondWithError_switch s clientMessage doc
  end.

(** ** Session.RespondToCommandMakeBSON *)

(** The state of the [for] loop when it ends: the document and the [gotOk]
    flag, an error returned from inside the loop, or the run-time panic of
    reading [args[idx+1]] past the end. *)
Inductive loop_exit : Type :=
| LoopDone (doc : bson_D) (gotOk : bool)
| LoopErr (e : error)
| LoopPanic.

(** The loop [for idx := 0; idx < len(args); idx += 2], on the arguments
    from [idx] on. *)
Fixpoint RespondToCommandMakeBSON_loop (args : list iface) (doc : bson_D)
    (gotOk : bool) : loop_exit :=
  match args with
  | [] => LoopDone doc gotOk
  | a :: rest =>
      match a with
      | IString name =>
          match rest with
          | [] => LoopPanic
          | v :: rest' =>
              RespondToCommandMakeBSON_loop rest'
                (doc ++ [ {| Name := name; Value := v |} ])%list
                (if String.eqb name "ok" then true else gotOk)
          end
      | _ => LoopErr (fmt_Errorf ("got a non string for bson name: " ++ verb_t a))
      end
  end.

(** The document assembled before conversion: [None] is the panic. *)
Definition RespondToCommandMakeBSON_doc (args : list iface)
    : option (result bson_D) :=
  if Nat.eqb (Nat.modulo (length args) 2) 1 then
    Some (Err (fmt_Errorf ("magic bson has to be even # of args, got "
                           ++ verb_d (Z.of_nat (length args)))))
  else
    match RespondToCommandMakeBSON_loop args [] false with
    | LoopPanic => None
    | LoopErr e => Some (Err e)
    | LoopDone doc gotOk =>
        Some (Ok (if negb gotOk
                  then (doc ++ [ {| Name := "ok"; Value := IInt 1 |} ])%list
                  else doc))
    end.

Definition RespondToCommandMakeBSON (s : Session) (clientMessage : Message)
    (args : list iface) : option (option error * Conn) :=
  match RespondToCommandMakeBSON_doc args with
  | None => None
  | Some (Err e) => Some (Some e, conn s)
  | Some (Ok doc) =>
      match SimpleBSONConvert doc with
      | Err err => Some (Some err, conn s)
      | Ok doc2 => Some (RespondToCommand s clientMessage doc2)
      end
  end.

(** The frames that a call added to the connection: what [c'] holds
    beyond what [c] held. *)
Definition frames_written (c c' : Conn) : list Message :=
  skipn (length (written c)) (written c').

(** The reply frames of the three generations of the protocol, as the
    respond methods build them for a request with id [id]. *)
Definition reply_frame (id : Z) (doc : SimpleBSON) : Message :=
  IsReplyMessage
    {| Reply_header := {| Size := 0; RequestID := 17; ResponseTo := id;
                          OpCode := OP_REPLY |};
       Reply_Flags := 0; Reply_CursorId := 0; Reply_StartingFrom := 0;
       Reply_NumberReturned := 1; Reply_Docs := [doc] |}.

Definition command_reply_frame (id : Z) (doc : SimpleBSON) : Message :=
  IsCommandReplyMessage
    {| CommandReply_header := {| Size := 0; RequestID := 17; ResponseTo := id;
                                 OpCode := OP_COMMAND_REPLY |};
       CommandReply_CommandReply := doc;
       CommandReply_Metadata := SimpleBSONEmpty;
       CommandReply_OutputDocs := [] |}.

Definition msg_frame (id : Z) (doc : SimpleBSON) : Message :=
  IsMessageMessage
    {| Msg_header := {| Size := 0; RequestID := 17; ResponseTo := id;
                        OpCode := OP_MSG |};
       Msg_FlagBits := 0; Msg_Sections := [BodySection doc] |}.

(** A single-cursor reply frame with the error flag unset: opcode OP_REPLY,
    no flag bit set, cursor id 0, one document returned. *)
Definition single_cursor_reply (f : Message) (doc : SimpleBSON) : Prop :=
  exists rm, f = IsReplyMessage rm /\
    OpCode (Reply_header rm) = OP_REPLY /\
    (forall bit, Z.testbit (Reply_Flags rm) bit = false) /\
    Reply_CursorId rm = 0 /\
    Reply_NumberReturned rm = 1 /\
    Reply_Docs rm = [doc].

(** A command reply frame with main document [doc], the canonical empty
    metadata document and no output document. *)
Definition command_reply_of (f : Message) (doc : SimpleBSON) : Prop :=
  exists rm, f = IsCommandReplyMessage rm /\
    OpCode (CommandReply_header rm) = OP_COMMAND_REPLY /\
    CommandReply_CommandReply rm = doc /\
    CommandReply_Metadata rm = SimpleBSONEmpty /\
    CommandReply_OutputDocs rm = [].

(** The outcome [r] of a respond call on session [s] is that of handing one
    frame with property [P] to the serializer. *)
Definition sends (s : Session) (P : Message -> Prop) (r : option error * Conn) : Prop :=
  exists f, P f /\ r = SendMessage f (conn s).

End Framer.

(** ** The arguments of RespondToCommandMakeBSON, read as pairs *)

(** The elements that a flattened name/value list gives, in order. *)
Fixpoint given_pairs (args : list iface) : bson_D :=
  match args with
  | IString name :: v :: rest => {| Name := name; Value := v |} :: given_pairs rest
  | _ => []
  end.

(** Whether one of the given names is ["ok"]. *)
Fixpoint names_ok (args : list iface) : bool :=
  match args with
  | IString name :: _ :: rest => String.eqb name "ok" || names_ok rest
  | _ => false
  end.

(** A well-formed argument list: an even number of arguments, a string at
    every even index. *)
Definition well_formed_args (args : list iface) : Prop :=
  Nat.even (length args) = true /\
  forall i, Nat.even i = true -> (i < length args)%nat ->
            exists name, nth_error args i = Some (IString name).

(** ** Channels *)

(** A Go channel: the buffered values, oldest first, the capacity, and
    whether it has been closed. *)
Record chan (A : Type) : Type := mkChan {
  buffer : list A;
  capacity : nat;
  closed : bool
}.

Definition make_chan (A : Type) (cap : nat) : chan A :=
  {| buffer := []; capacity := cap; closed := false |}.

(** What a channel operation does to the task that performs it. *)
Inductive chan_op (A : Type) : Type :=
| OpOk (a : A)
| OpBlock
| OpPanic.
Arguments OpOk {A} a.
Arguments OpBlock {A}.
Arguments OpPanic {A}.

(** [c <- v] with no receiver waiting: a closed channel panics, a channel
    with room buffers the value, a full one blocks. *)
Definition chan_send {A : Type} (v : A) (c : chan A) : chan_op (unit * chan A) :=
  if closed c then OpPanic
  else if (length (buffer c) <? capacity c)%nat
       then OpOk (tt, {| buffer := (buffer c ++ [v])%list;
                         capacity := capacity c; closed := false |})
       else OpBlock.

(** [close(c)]: closing twice panics. *)
Definition chan_close {A : Type} (c : chan A) : chan_op (unit * chan A) :=
  if closed c then OpPanic
  else OpOk (tt, {| buffer := buffer c; capacity := capacity c; closed := true |}).

(** [<-c] with no sender waiting: a buffered value is taken; a drained
    closed channel yields the zero value at once ([None]); otherwise the
    receive blocks. *)
Definition chan_recv {A : Type} (c : chan A) : chan_op (option A * chan A) :=
  match buffer c with
  | v :: b => OpOk (Some v, {| buffer := b; capacity := capacity c; closed := closed c |})
  | [] => if closed c then OpOk (None, c) else OpBlock
  end.

(** ** Server *)

Record SSLPair : Type := mkSSLPair { CertFile : string; KeyFile : string }.

(** [ServerConfig], without the logging fields. *)
Record ServerConfig : Type := mkServerConfig {
  BindHost : string;
  BindPort : Z;
  UseSSL : bool;
  SSLKeys : list SSLPair;
  MinTlsVersion : Z;
  TCPKeepAlivePeriod : Z
}.

(** [Server], without the logger and the worker factory.  [Addr] is [None]
    until the listener is bound. *)
Record Server : Type := mkServer {
  config : ServerConfig;
  killChan : chan unit;
  initChan : chan (option error);
  doneChan : chan unit;
  Addr : option string
}.

Definition NewServer (config : ServerConfig) : Server :=
  {| config := config;
     killChan := make_chan unit 0;
     initChan := make_chan (option error) 1;
     doneChan := make_chan unit 0;
     Addr := None |}.

(** *** The world outside the server *)

Record tls_Certificate : Type := mkCertificate { CertName : string }.

Record tls_Config : Type := mkTlsConfig {
  Certificates : list tls_Certificate;
  MinVersion : Z
}.

Record net_Listener : Type := mkListener { ln_Addr : string }.

(** An accepted connection: its peer, whether its dynamic type is
    [*net.TCPConn], its keep-alive settings, and the TLS server transport
    wrapped around it, if any. *)
Record net_Conn : Type := mkNetConn {
  RemoteAddr : string;
  isTCPConn : bool;
  KeepAlive : bool;
  KeepAlivePeriod : Z;
  tlsServer : option tls_Config
}.

(** What the operating system answers to the calls of [Run]. *)
Record Env : Type := mkEnv {
  tls_LoadX509KeyPair : string -> string -> result tls_Certificate;
  net_Listen : string -> string -> result net_Listener
}.

(** [type accepted struct]. *)
Record accepted : Type := mkAccepted {
  accepted_conn : net_Conn;
  accepted_err : option error
}.

(** What one [select] of the accept loop receives: the shutdown request
    (the kill channel has been closed by [Close]), or the result of the
    background accept. *)
Inductive select_event : Type :=
| KillSignal
| IncomingConnection (connectionEvent : accepted).

(** A session handed to its own task by [go c.Run(conn)]. *)
Record SessionTask : Type := mkSessionTask {
  task_remoteAddr : string;
  task_loggerPrefix : string;
  task_conn : net_Conn
}.

(** The state that [Run] and [Close] act on: the server, whether the
    listening socket is open, and the session tasks started so far. *)
Record World : Type := mkWorld {
  srv : Server;
  listenerOpen : bool;
  spawned : list SessionTask
}.

Definition initial_world (s : Server) : World :=
  {| srv := s; listenerOpen := false; spawned := [] |}.

(** *** The monad of blocking methods *)

Inductive outcome (A : Type) : Type :=
| Returned (a : A) (w : World)
| Blocked (w : World)
| Panicked (w : World).
Arguments Returned {A} a w.
Arguments Blocked {A} w.
Arguments Panicked {A} w.

Definition M (A : Type) : Type := World -> outcome A.

Definition ret {A : Type} (a : A) : M A := fun w => Returned a w.

Definition bind {A B : Type} (m : M A) (k : A -> M B) : M B :=
  fun w =>
    match m w with
    | Returned a w' => k a w'
    | Blocked w' => Blocked w'
    | Panicked w' => Panicked w'
    end.

Notation "x <- m ;; k" := (bind m (fun x => k))
  (at level 61, m at next level, right associativity).
Notation "m ;;; k" := (bind m (fun _ => k))
  (at level 61, right associativity).

(** [defer d] in front of [body]: [d] runs when [body] returns or panics,
    not while it is blocked. *)
Definition defer {A : Type} (d : M unit) (body : M A) : M A :=
  fun w =>
    match body w with
    | Returned a w' =>
        match d w' with
        | Returned _ w'' => Returned a w''
        | Blocked w'' => Blocked w''
        | Panicked w'' => Panicked w''
        end
    | Blocked w' => Blocked w'
    | Panicked w' =>
        match d w' with
        | Returned _ w'' => Panicked w''
        | Blocked w'' => Blocked w''
        | Panicked w'' => Panicked w''
        end
    end.

(** A channel operation on one of the server's channels. *)
Definition on_chan {A B : Type} (get : Server -> chan A)
    (set : chan A -> Server -> Server)
    (op : chan A -> chan_op (B * chan A)) : M B :=
  fun w =>
    match op (get (srv w)) with
    | OpOk (b, c) =>
        Returned b {| srv := set c (srv w);
                      listenerOpen := listenerOpen w;
                      spawned := spawned w |}
    | OpBlock => Blocked w
    | OpPanic => Panicked w
    end.

Definition set_killChan (c : chan unit) (s : Server) : Server :=
  {| config := config s; killChan := c; initChan := initChan s;
     doneChan := doneChan s; Addr := Addr s |}.

Definition set_initChan (c : chan (option error)) (s : Server) : Server :=
  {| config := config s; killChan := killChan s; initChan := c;
     doneChan := doneChan s; Addr := Addr s |}.

Definition set_doneChan (c : chan unit) (s : Server) : Server :=
  {| config := config s; killChan := killChan s; initChan := initChan s;
     doneChan := c; Addr := Addr s |}.

Definition set_Addr (a : string) (s : Server) : Server :=
  {| config := config s; killChan := killChan s; initChan := initChan s;
     doneChan := doneChan s; Addr := Some a |}.

Definition modify_srv (f : Server -> Server) : M unit :=
  fun w => Returned tt {| srv := f (srv w); listenerOpen := listenerOpen w;
                          spawned := spawned w |}.

Definition set_listenerOpen (b : bool) : M unit :=
  fun w => Returned tt {| srv := srv w; listenerOpen := b; spawned := spawned w |}.

Definition go_Run (t : SessionTask) : M unit :=
  fun w => Returned tt {| srv := srv w; listenerOpen := listenerOpen w;
                          spawned := (spawned w ++ [t])%list |}.

(** ** Server.Run *)

(** Modelled from the spec: [NewStackErrorf] (declared outside server.go)
    wraps a formatted message in an error; the stack trace it records is
    not part of the model. *)
Definition NewStackErrorf (msg : string) : error := errors_New msg.

(** The loop over [s.config.SSLKeys]; on failure the result is the variable
    [returnErr]. *)
Fixpoint Run_loadCerts (env : Env) (pairs : list SSLPair)
    (certs : list tls_Certificate) : result (list tls_Certificate) :=
  match pairs with
  | [] => Ok certs
  | p :: rest =>
      match tls_LoadX509KeyPair env (CertFile p) (KeyFile p) with
      | Err err =>
          Err (fmt_Errorf ("cannot LoadX509KeyPair from " ++ CertFile p
                           ++ " " ++ KeyFile p
                           ++ " " ++ verb_s_error (Some err)))
      | Ok cer => Run_loadCerts env rest (certs ++ [cer])%list
      end
  end.

(** The block [if s.config.UseSSL { ... }]: the value of [tlsConfig] after
    it, or the [returnErr] it leaves with. *)
Definition Run_tlsConfig (env : Env) (cfg : ServerConfig)
    : result (option tls_Config) :=
  if UseSSL cfg then
    if (length (SSLKeys cfg) =? 0)%nat then
      Err (fmt_Errorf "no ssl keys configured")
    else
      match Run_loadCerts env (SSLKeys cfg) [] with
      | Err returnErr => Err returnErr
      | Ok certs =>
          Ok (Some {| Certificates := certs;
                      MinVersion := if negb (MinTlsVersion cfg =? 0)
                                    then MinTlsVersion cfg else 0 |})
      end
  else Ok None.

(** The keep-alive [switch] on an accepted connection: a connection that is
    not a [*net.TCPConn] is left as it is (a warning is logged). *)
Definition Run_keepAlive (cfg : ServerConfig) (conn : net_Conn) : net_Conn :=
  if 0 <? TCPKeepAlivePeriod cfg then
    if isTCPConn conn then
      {| RemoteAddr := RemoteAddr conn; isTCPConn := true;
         KeepAlive := true; KeepAlivePeriod := TCPKeepAlivePeriod cfg;
         tlsServer := tlsServer conn |}
    else conn
  else conn.

Definition tls_Server (conn : net_Conn) (tlsConfig : option tls_Config) : net_Conn :=
  {| RemoteAddr := RemoteAddr conn; isTCPConn := false;
     KeepAlive := KeepAlive conn; KeepAlivePeriod := KeepAlivePeriod conn;
     tlsServer := tlsConfig |}.

(** The shutdown request seen by the [select]: the kill channel is closed. *)
Definition kill_observed : M unit :=
  modify_srv (fun s =>
    set_killChan {| buffer := buffer (killChan s);
                    capacity := capacity (killChan s);
                    closed := true |} s).

(** The accept loop, one iteration per [select].  [err] is the variable
    [err] of [Run], assigned by [net.Listen].  With no event left the loop
    is blocked in its [select]. *)
Fixpoint Run_acceptLoop (cfg : ServerConfig) (tlsConfig : option tls_Config)
    (err : option error) (events : list select_event) : M (option error) :=
  match events with
  | [] => fun w => Blocked w
  | KillSignal :: _ =>
      kill_observed ;;; ret None
  | IncomingConnection connectionEvent :: rest =>
      match accepted_err connectionEvent with
      | Some _ =>
          ret (Some (NewStackErrorf ("could not accept in proxy: "
                                     ++ verb_s_error err)))
      | None =>
          let conn := accepted_conn connectionEvent in
          let conn := Run_keepAlive cfg conn in
          let conn := if UseSSL cfg then tls_Server conn tlsConfig else conn in
          let remoteAddr := RemoteAddr conn in
          go_Run {| task_remoteAddr := remoteAddr;
                    task_loggerPrefix := "Session " ++ remoteAddr;
                    task_conn := conn |} ;;;
          Run_acceptLoop cfg tlsConfig err rest
      end
  end.

Definition Run (env : Env) (events : list select_event) : M (option error) :=
  fun w0 =>
    let cfg := config (srv w0) in
    let bindTo := BindHost cfg ++ ":" ++ verb_d (BindPort cfg) in
    defer (on_chan initChan set_initChan chan_close)
      (match Run_tlsConfig env cfg with
       | Err returnErr =>
           on_chan initChan set_initChan (chan_send (Some returnErr)) ;;;
           ret (Some returnErr)
       | Ok tlsConfig =>
           match net_Listen env "tcp" bindTo with
           | Err err =>
               let returnErr :=
                 NewStackErrorf ("cannot start listening in proxy: "
                                 ++ verb_s_error (Some err)) in
               on_chan initChan set_initChan (chan_send (Some returnErr)) ;;;
               ret (Some returnErr)
           | Ok ln =>
               let err : option error := None in
               set_listenerOpen true ;;;
               modify_srv (set_Addr (ln_Addr ln)) ;;;
               on_chan initChan set_initChan (chan_send None) ;;;
               defer (on_chan doneChan set_doneChan chan_close)
                 (defer (set_listenerOpen false)
                    (Run_acceptLoop cfg tlsConfig err events))
           end
       end) w0.

(** The world in which the accept loop starts: the listener is bound, its
    address recorded, and nil delivered on the ready channel. *)
Definition listening_world (cfg : ServerConfig) (ln : net_Listener) : World :=
  {| srv := {| config := cfg;
               killChan := make_chan unit 0;
               initChan := {| buffer := [None]; capacity := 1; closed := false |};
               doneChan := make_chan unit 0;
               Addr := Some (ln_Addr ln) |};
     listenerOpen := true;
     spawned := [] |}.

(** ** Server.InitChannel and Server.Close *)

Definition InitChannel (s : Server) : chan (option error) := initChan s.

Definition Close : M unit :=
  on_chan killChan set_killChan chan_close ;;;
  (_ <- on_chan doneChan set_doneChan chan_recv ;; ret tt).

(** ** Reference instances *)

(** Modelled from the spec: a document codec to run the respond methods
    with (the codec of the repository is declared outside server.go).  It
    turns an ordered name/value sequence into a wire-ready document, here
    the sequence itself, and, as lines 128-131 and 204-207 of server.go
    provide for, it can fail: like the BSON encoder, it has no encoding for
    a channel or a function and returns the encoder's error, which names
    the type, for a document that holds one.  Every other value is
    encoded. *)
Definition no_bson_encoding (ty : string) : bool :=
  prefix "chan " ty || prefix "<-chan " ty || prefix "chan<- " ty
  || prefix "func(" ty.

Definition encodable (v : iface) : bool :=
  match v with
  | IOther ty _ => negb (no_bson_encoding ty)
  | _ => true
  end.

Definition type_name (v : iface) : string :=
  match v with
  | INil => "nil"
  | IString _ => "string"
  | IInt _ => "int"
  | IBool _ => "bool"
  | IOther ty _ => ty
  end.

Definition plain_convert (d : bson_D) : result bson_D :=
  match find (fun e => negb (encodable (Value e))) d with
  | Some e => Err (errors_New ("Can't marshal " ++ type_name (Value e)
                               ++ " in a BSON document"))
  | None => Ok d
  end.

Definition plain_codec : DocumentCodec :=
  {| SimpleBSON := bson_D;
     SimpleBSONConvert := plain_convert;
     SimpleBSONEmpty := [] |}.

(** A session on a healthy connection on which nothing has been written. *)
Definition fresh_session : @Session plain_codec :=
  {| conn := {| written := []; writeErr := None |};
     remoteAddr := "127.0.0.1:50000";
     SSLServerName := "" |}.

(** A request message of the given opcode. *)
Definition request (op : Z) (id : Z) : @Message plain_codec :=
  OtherMessage {| Size := 16; RequestID := id; ResponseTo := 0; OpCode := op |}.

(** An error with the error-to-document capability whose own document
    holds a channel, a value that has no encoding. *)
Definition unencodable_error : error :=
  {| Error := "shutting down";
     ToBSON := Some [ {| Name := "ok"; Value := IInt 0 |};
                      {| Name := "detail";
                         Value := IOther "chan int" "%!t(chan int=0xc000012345)" |} ] |}.

(** An operating system on which every certificate loads and the bind
    succeeds. *)
Definition friendly_env : Env :=
  {| tls_LoadX509KeyPair := fun c _ => Ok {| CertName := c |};
     net_Listen := fun _ a => Ok {| ln_Addr := a |} |}.

Definition plain_config : ServerConfig :=
  {| BindHost := "127.0.0.1"; BindPort := 0; UseSSL := false; SSLKeys := [];
     MinTlsVersion := 0; TCPKeepAlivePeriod := 0 |}.

Definition tls_config_without_keys : ServerConfig :=
  {| BindHost := "127.0.0.1"; BindPort := 0; UseSSL := true; SSLKeys := [];
     MinTlsVersion := 0; TCPKeepAlivePeriod := 0 |}.

Definition tcp_peer : net_Conn :=
  {| RemoteAddr := "10.0.0.7:41000"; isTCPConn := true; KeepAlive := false;
     KeepAlivePeriod := 0; tlsServer := None |}.

(** [contains needle s]: [needle] occurs in [s]. *)
Fixpoint contains (needle s : string) : bool :=
  if prefix needle s then true
  else match s with
       | EmptyString => false
       | String _ s' => contains needle s'
       end.


(** ** Reading OP_MSG replies *)

Section MsgReplies.

Context {codec : DocumentCodec}.

(** A message of opcode OP_MSG with flags 0 and exactly one section, a body
    section holding [doc], in reply to request [id]. *)
Definition msg_reply_of (id : Z) (doc : SimpleBSON) (f : Message) : Prop :=
  exists rm, f = IsMessageMessage rm /\
    OpCode (Msg_header rm) = OP_MSG /\
    ResponseTo (Msg_header rm) = id /\
    Msg_FlagBits rm = 0 /\
    Msg_Sections rm = [BodySection doc].

(** The documents a reply frame carries to the client: the documents of a
    cursor reply, the main document of a command reply, the bodies of the
    sections of an OP_MSG message. *)
Definition reply_documents (f : Message) : list SimpleBSON :=
  match f with
  | IsReplyMessage rm => Reply_Docs rm
  | IsCommandReplyMessage rm => [CommandReply_CommandReply rm]
  | IsMessageMessage rm =>
      map (fun section => match section with BodySection Body => Body end)
          (Msg_Sections rm)
  | OtherMessage _ => []
  end.

End MsgReplies.

(** ** Session.Run *)

(** [strings.HasSuffix] and [strings.TrimSuffix] of the Go library. *)
Definition strings_HasSuffix (s suffix : string) : bool :=
  (String.length suffix <=? String.length s)%nat &&
  String.eqb (substring (String.length s - String.length suffix)
                        (String.length suffix) s)
             suffix.

Definition strings_TrimSuffix (s suffix : string) : string :=
  if strings_HasSuffix s suffix
  then substring 0 (String.length s - String.length suffix) s
  else s.

(** How a call into the worker ends. *)
Inductive call_end : Type :=
| CallReturns
| CallPanics
| CallBlocks.

(** [ServerWorker]: how its [DoLoopTemp] ends; its [Close] returns. *)
Record ServerWorker : Type := mkServerWorker { DoLoopTemp : call_end }.

(** [ServerWorkerFactory]: [CreateWorker] sees the session, that is its
    remote address and the server name captured so far. *)
Record ServerWorkerFactory : Type := mkServerWorkerFactory {
  CreateWorker : string -> string -> result ServerWorker
}.

(** What the peer does during the TLS handshake: the result of
    [c.Handshake()] and the server name of [c.ConnectionState()]. *)
Record tls_Peer : Type := mkTlsPeer {
  Handshake : option error;
  ServerName : string
}.

Inductive slogger_Level : Type :=
| INFO
| WARN.

(** What [Session.Run] does, in order. *)
Inductive session_event : Type :=
| EvHandshake
| EvLogf (level : slogger_Level) (message : string)
| EvCreateWorker (remote sslServerName : string)
| EvDoLoopTemp
| EvWorkerClose
| EvConnClose.

(** A run of [Session.Run]: the session's [SSLServerName] afterwards, the
    events so far, and how the run ended. *)
Record SessionRun : Type := mkSessionRun {
  run_SSLServerName : string;
  run_events : list session_event;
  run_end : call_end
}.

(** A deferred call: its events happen when the body returns or panics, not
    while it is blocked. *)
Definition deferred (evs : list session_event) (body : SessionRun) : SessionRun :=
  match run_end body with
  | CallBlocks => body
  | _ => {| run_SSLServerName := run_SSLServerName body;
            run_events := (run_events body ++ evs)%list;
            run_end := run_end body |}
  end.

(** [Session.Run] from the first log line on: [name] is [s.SSLServerName]
    and [evs] what has happened so far. *)
Definition Session_Run_worker (factory : ServerWorkerFactory)
    (remote name : string) (evs : list session_event) : SessionRun :=
  let evs := (evs ++ [EvLogf INFO ("new connection SSLServerName [" ++ name ++ "]")])%list in
  deferred [EvLogf INFO "socket closed"]
    (match CreateWorker factory remote name with
     | Err err =>
         {| run_SSLServerName := name;
            run_events := (evs ++ [EvCreateWorker remote name;
                                   EvLogf WARN ("error creating worker "
                                                ++ verb_s_error (Some err))])%list;
            run_end := CallReturns |}
     | Ok worker =>
         deferred [EvWorkerClose]
           {| run_SSLServerName := name;
              run_events := (evs ++ [EvCreateWorker remote name; EvDoLoopTemp])%list;
              run_end := DoLoopTemp worker |}
     end).

(** [Session.Run] on a session with the given remote address and
    [SSLServerName]; [conn] is a [*tls.Conn] exactly when a TLS server
    transport is wrapped around it. *)
Definition Session_Run (peer : tls_Peer) (factory : ServerWorkerFactory)
    (remote SSLServerName0 : string) (conn : net_Conn) : SessionRun :=
  deferred [EvConnClose]
    (match tlsServer conn with
     | Some _ =>
         match Handshake peer with
         | Some err =>
             {| run_SSLServerName := SSLServerName0;
                run_events := [EvHandshake;
                               EvLogf WARN ("error doing tls handshake "
                                            ++ verb_s_error (Some err))];
                run_end := CallReturns |}
         | None =>
             Session_Run_worker factory remote
               (strings_TrimSuffix (ServerName peer) ".") [EvHandshake]
         end
     | None => Session_Run_worker factory remote SSLServerName0 []
     end).

(** The session that [Server.Run] builds for an accepted connection, run:
    its [SSLServerName] starts empty. *)
Definition run_task (peer : tls_Peer) (factory : ServerWorkerFactory)
    (t : SessionTask) : SessionRun :=
  Session_Run peer factory (task_remoteAddr t) "" (task_conn t).

(** ** Reading the accept loop *)

(** The connections accepted before the loop stops: those of the leading
    successful accepts. *)
Fixpoint accepted_before_stop (events : list select_event) : list net_Conn :=
  match events with
  | IncomingConnection {| accepted_conn := c; accepted_err := None |} :: rest =>
      c :: accepted_before_stop rest
  | _ => []
  end.

(** How the session task started for an accepted connection [c] relates to
    it, under configuration [cfg] and TLS configuration [tlsConfig]. *)
Definition session_of (cfg : ServerConfig) (tlsConfig : option tls_Config)
    (c : net_Conn) (t : SessionTask) : Prop :=
  task_remoteAddr t = RemoteAddr c /\
  task_loggerPrefix t = "Session " ++ RemoteAddr c /\
  RemoteAddr (task_conn t) = RemoteAddr c /\
  tlsServer (task_conn t) = (if UseSSL cfg then tlsConfig else tlsServer c) /\
  (KeepAlive (task_conn t), KeepAlivePeriod (task_conn t))
  = (if (0 <? TCPKeepAlivePeriod cfg) && isTCPConn c
     then (true, TCPKeepAlivePeriod cfg)
     else (KeepAlive c, KeepAlivePeriod c)).

(** Whether a key pair loads. *)
Definition loads (env : Env) (p : SSLPair) (c : tls_Certificate) : Prop :=
  tls_LoadX509KeyPair env (CertFile p) (KeyFile p) = Ok c.

(** A TLS peer that completes the handshake for the given name, and a
    worker factory whose workers run to their end. *)
Definition obliging_peer (name : string) : tls_Peer :=
  {| Handshake := None; ServerName := name |}.

Definition simple_factory : ServerWorkerFactory :=
  {| CreateWorker := fun _ _ => Ok {| DoLoopTemp := CallReturns |} |}.

Definition tls_config_one_key : ServerConfig :=
  {| BindHost := "127.0.0.1"; BindPort := 0; UseSSL := true;
     SSLKeys := [ {| CertFile := "server.crt"; KeyFile := "server.key" |} ];
     MinTlsVersion := 771; TCPKeepAlivePeriod := 30 |}.

(** * Properties of the response framer *)

Section FramerProperties.

Context {codec : DocumentCodec}.

Ltac by_opcode :=
  repeat match goal with
         | |- context [Z.eqb ?a ?b] => destruct (Z.eqb_spec a b)
         end;
  cbn [orb andb negb]; try reflexivity; try congruence.

Lemma opcode_constants_distinct :
  NoDup [OP_REPLY; OP_UPDATE; OP_INSERT; OP_QUERY; OP_GET_MORE; OP_DELETE;
         OP_KILL_CURSORS; OP_COMMAND; OP_COMMAND_REPLY; OP_MSG].
Proof.
  repeat constructor; cbn; intuition discriminate.
Qed.

Lemma SendMessage_healthy (f : Message) (c : Conn) :
  writeErr c = None ->
  SendMessage f c = (None, {| written := written c ++ [f]; writeErr := None |}%list).
Proof. unfold SendMessage; intros ->; reflexivity. Qed.

Lemma frames_written_nothing (c : Conn) : frames_written c c = [].
Proof. unfold frames_written; apply skipn_all. Qed.

Lemma frames_written_SendMessage (f : Message) (c : Conn) :
  frames_written c (snd (SendMessage f c)) = [] \/
  frames_written c (snd (SendMessage f c)) = [f].
Proof.
  unfold frames_written, SendMessage; destruct (writeErr c); cbn.
  - left; apply skipn_all.
  - right; rewrite skipn_app, skipn_all, Nat.sub_diag; reflexivity.
Qed.

Lemma written_extends_SendMessage (f : Message) (c : Conn) :
  written (snd (SendMessage f c))
  = (written c ++ frames_written c (snd (SendMessage f c)))%list.
Proof.
  unfold frames_written, SendMessage; destruct (writeErr c); cbn.
  - now rewrite skipn_all, app_nil_r.
  - now rewrite skipn_app, skipn_all, Nat.sub_diag.
Qed.

(** Every call of [RespondToCommand] ends in one of three ways. *)
Lemma RespondToCommand_cases (s : Session) (m : Message) (doc : SimpleBSON) :
  RespondToCommand s m doc = (Some ErrUnknownOpcode, conn s) \/
  RespondToCommand s m doc = (None, conn s) \/
  exists f, ResponseTo (Header f) = RequestID (Header m) /\
            RespondToCommand s m doc = SendMessage f (conn s).
Proof.
  unfold RespondToCommand; cbv zeta.
  by_opcode; auto; right; right; eexists; (split; [|reflexivity]); reflexivity.
Qed.

Lemma RespondWithError_switch_cases (s : Session) (m : Message) (doc : SimpleBSON) :
  RespondWithError_switch s m doc = (Some ErrUnknownOpcode, conn s) \/
  RespondWithError_switch s m doc = (None, conn s) \/
  exists f, ResponseTo (Header f) = RequestID (Header m) /\
            RespondWithError_switch s m doc = SendMessage f (conn s).
Proof.
  unfold RespondWithError_switch; cbv zeta.
  by_opcode; auto; right; right; eexists; (split; [|reflexivity]); reflexivity.
Qed.

Lemma RespondWithError_cases (s : Session) (m : Message) (err : option error) :
  (exists e, RespondWithError s m err = (Some e, conn s)) \/
  RespondWithError s m err = (None, conn s) \/
  exists f, ResponseTo (Header f) = RequestID (Header m) /\
            RespondWithError s m err = SendMessage f (conn s).
Proof.
  unfold RespondWithError; cbv zeta.
  destruct (SimpleBSONConvert _) as [doc|e]; [|left; eauto].
  destruct (RespondWithError_switch_cases s m doc) as [H|[H|(f & Hf & H)]];
    rewrite H; eauto.
Qed.

(** What holds of the legacy query opcodes: OP_QUERY is answered by a
    single-cursor reply on both paths, OP_GET_MORE on the error path. *)
Lemma RespondToCommand_QUERY (s : Session) (m : Message) (doc : SimpleBSON) :
  OpCode (Header m) = OP_QUERY ->
  RespondToCommand s m doc = SendMessage (reply_frame (RequestID (Header m)) doc) (conn s).
Proof. unfold RespondToCommand; intros ->; reflexivity. Qed.

Lemma RespondWithError_switch_QUERY_GET_MORE (s : Session) (m : Message) (doc : SimpleBSON) :
  OpCode (Header m) = OP_QUERY \/ OpCode (Header m) = OP_GET_MORE ->
  RespondWithError_switch s m doc
  = SendMessage (reply_frame (RequestID (Header m)) doc) (conn s).
Proof. unfold RespondWithError_switch; intros [-> | ->]; reflexivity. Qed.

(** OP_MSG is answered, on both paths, by a message with flags 0 and one
    body section holding the document. *)
Lemma respond_MSG (s : Session) (m : Message) (doc : SimpleBSON) :
  OpCode (Header m) = OP_MSG ->
  RespondToCommand s m doc = SendMessage (msg_frame (RequestID (Header m)) doc) (conn s) /\
  RespondWithError_switch s m doc
  = SendMessage (msg_frame (RequestID (Header m)) doc) (conn s).
Proof.
  unfold RespondToCommand, RespondWithError_switch; intros ->; split; reflexivity.
Qed.

(** Any opcode outside the seven of the two switches gets the
    unknown-opcode error on both paths, and nothing is written. *)
Lemma respond_unknown_opcode (s : Session) (m : Message) (doc : SimpleBSON) :
  ~ In (OpCode (Header m))
       [OP_QUERY; OP_GET_MORE; OP_INSERT; OP_UPDATE; OP_DELETE; OP_COMMAND; OP_MSG] ->
  RespondToCommand s m doc = (Some ErrUnknownOpcode, conn s) /\
  RespondWithError_switch s m doc = (Some ErrUnknownOpcode, conn s).
Proof.
  intros Hop; unfold RespondToCommand, RespondWithError_switch; cbv zeta.
  split; by_opcode; exfalso; apply Hop; cbn; rewrite e; tauto.
Qed.

Lemma reply_frame_single_cursor (id : Z) (doc : SimpleBSON) :
  single_cursor_reply (reply_frame id doc) doc.
Proof.
  eexists; split; [reflexivity|]; cbn; repeat split; auto using Z.testbit_0_l.
Qed.

Lemma command_reply_frame_ok (id : Z) (doc : SimpleBSON) :
  command_reply_of (command_reply_frame id doc) doc.
Proof. eexists; split; [reflexivity|]; cbn; auto. Qed.

(** C1 (evaluation at the failing input): for a request with opcode
    OP_GET_MORE, RespondToCommand sends no reply frame: it returns the
    unknown-opcode error and leaves the connection as it was, whereas
    RespondWithError, on the same request, hands a single-cursor reply frame
    with the error flag unset to the serializer. *)
Theorem C1_RespondToCommand_GET_MORE_unknown_opcode
    (s : Session) (m : Message) (doc : SimpleBSON) :
  OpCode (Header m) = OP_GET_MORE ->
  RespondToCommand s m doc = (Some ErrUnknownOpcode, conn s) /\
  forall err d, SimpleBSONConvert (RespondWithError_errBSON err) = Ok d ->
    sends s (fun f => single_cursor_reply f d) (RespondWithError s m err).
Proof.
  intros Hop; split.
  - unfold RespondToCommand; rewrite Hop; reflexivity.
  - intros err d Hd. unfold RespondWithError; cbv zeta; rewrite Hd.
    rewrite RespondWithError_switch_QUERY_GET_MORE by auto.
    eexists; split; [apply reply_frame_single_cursor | reflexivity].
Qed.

(** C3 (amended): for every request whose opcode is OP_COMMAND,
    RespondToCommand hands to the serializer a command reply frame whose
    main document is the given document, whose metadata document is the
    canonical empty document and whose output list is empty; and
    RespondWithError does the same with the converted document of the error,
    whenever that conversion succeeds (when it fails, the conversion error
    is returned and nothing is written).  A request whose opcode is
    OP_COMMAND_REPLY gets no frame: RespondToCommand returns the
    unknown-opcode error, and so does RespondWithError when the document of
    the error converts, while it returns the conversion error when it does
    not; nothing is written. *)
Theorem C3_COMMAND_command_reply (s : Session) (m : Message) :
  (OpCode (Header m) = OP_COMMAND ->
   (forall doc, sends s (fun f => command_reply_of f doc) (RespondToCommand s m doc)) /\
   (forall err doc, SimpleBSONConvert (RespondWithError_errBSON err) = Ok doc ->
      sends s (fun f => command_reply_of f doc) (RespondWithError s m err)) /\
   (forall err e, SimpleBSONConvert (RespondWithError_errBSON err) = Err e ->
      RespondWithError s m err = (Some e, conn s))) /\
  (OpCode (Header m) = OP_COMMAND_REPLY ->
   (forall doc, RespondToCommand s m doc = (Some ErrUnknownOpcode, conn s)) /\
   (forall err doc, SimpleBSONConvert (RespondWithError_errBSON err) = Ok doc ->
      RespondWithError s m err = (Some ErrUnknownOpcode, conn s)) /\
   (forall err e, SimpleBSONConvert (RespondWithError_errBSON err) = Err e ->
      RespondWithError s m err = (Some e, conn s))).
Proof.
  split; intros Hop; repeat split.
  - intros doc; exists (command_reply_frame (RequestID (Header m)) doc).
    split; [apply command_reply_frame_ok|].
    unfold RespondToCommand; rewrite Hop; reflexivity.
  - intros err doc Hd; exists (command_reply_frame (RequestID (Header m)) doc).
    split; [apply command_reply_frame_ok|].
    unfold RespondWithError, RespondWithError_switch; cbv zeta.
    rewrite Hd, Hop; reflexivity.
  - intros err e He; unfold RespondWithError; cbv zeta; rewrite He; reflexivity.
  - intros doc; unfold RespondToCommand; rewrite Hop; reflexivity.
  - intros err doc Hd; unfold RespondWithError, RespondWithError_switch; cbv zeta.
    rewrite Hd, Hop; reflexivity.
  - intros err e He; unfold RespondWithError; cbv zeta; rewrite He; reflexivity.
Qed.

(** C7: the reply document of RespondWithError.  On a healthy connection
    and for a request of a replying opcode (OP_QUERY, OP_GET_MORE,
    OP_COMMAND, OP_MSG), RespondWithError returns nil and adds one frame to
    the connection, and the document that this frame carries is the
    conversion of: [{ok:1}] for a nil error; the error's own document,
    unchanged, for an error with the error-to-document capability;
    [{ok:0, errmsg: message}] for any other error.  If that document does
    not convert, the conversion error is returned and no frame is added. *)
Theorem C7_RespondWithError_reply_document (s : Session) (m : Message) :
  writeErr (conn s) = None ->
  In (OpCode (Header m)) [OP_QUERY; OP_GET_MORE; OP_COMMAND; OP_MSG] ->
  let replies_with (err : option error) (d : bson_D) :=
    match SimpleBSONConvert d with
    | Ok doc =>
        exists f,
          RespondWithError s m err
          = (None, {| written := (written (conn s) ++ [f])%list; writeErr := None |}) /\
          reply_documents f = [doc]
    | Err e => RespondWithError s m err = (Some e, conn s)
    end in
  replies_with None [ {| Name := "ok"; Value := IInt 1 |} ] /\
  (forall e own, ToBSON e = Some own -> replies_with (Some e) own) /\
  (forall e, ToBSON e = None ->
     replies_with (Some e) [ {| Name := "ok"; Value := IInt 0 |};
                             {| Name := "errmsg"; Value := IString (Error e) |} ]).
Proof.
  intros Hw Hop; cbv zeta.
  assert (Hswitch : forall doc, exists f,
            RespondWithError_switch s m doc
            = (None, {| written := (written (conn s) ++ [f])%list; writeErr := None |}) /\
            reply_documents f = [doc]).
  { intros doc; unfold RespondWithError_switch; cbv zeta.
    destruct Hop as [Hop|[Hop|[Hop|[Hop|[]]]]]; rewrite <- Hop;
      cbn [Z.eqb Pos.eqb orb OP_QUERY OP_GET_MORE OP_INSERT OP_UPDATE OP_DELETE
           OP_COMMAND OP_MSG];
      rewrite SendMessage_healthy by assumption;
      eexists; split; reflexivity. }
  assert (Hall : forall err,
            match SimpleBSONConvert (RespondWithError_errBSON err) with
            | Ok doc =>
                exists f,
                  RespondWithError s m err
                  = (None, {| written := (written (conn s) ++ [f])%list;
                              writeErr := None |}) /\
                  reply_documents f = [doc]
            | Err e => RespondWithError s m err = (Some e, conn s)
            end).
  { intros err; unfold RespondWithError; cbv zeta.
    destruct (SimpleBSONConvert (RespondWithError_errBSON err)) as [doc|e];
      [apply Hswitch | reflexivity]. }
  repeat split.
  - exact (Hall None).
  - intros e own Hown; specialize (Hall (Some e)).
    cbn [RespondWithError_errBSON] in Hall; rewrite Hown in Hall; exact Hall.
  - intros e Hnone; specialize (Hall (Some e)).
    cbn [RespondWithError_errBSON] in Hall; rewrite Hnone in Hall; exact Hall.
Qed.

(** C8 (amended): for every request whose opcode is OP_INSERT, OP_UPDATE or
    OP_DELETE, RespondToCommand writes nothing and returns nil for every
    document, and RespondWithError writes nothing for every error argument
    and returns nil whenever the document of the error converts; when the
    conversion fails it returns the conversion error. *)
Theorem C8_legacy_writes_no_reply (s : Session) (m : Message) :
  OpCode (Header m) = OP_INSERT \/ OpCode (Header m) = OP_UPDATE \/
  OpCode (Header m) = OP_DELETE ->
  (forall doc, RespondToCommand s m doc = (None, conn s)) /\
  (forall err, snd (RespondWithError s m err) = conn s) /\
  (forall err doc, SimpleBSONConvert (RespondWithError_errBSON err) = Ok doc ->
     RespondWithError s m err = (None, conn s)) /\
  (forall err e, SimpleBSONConvert (RespondWithError_errBSON err) = Err e ->
     RespondWithError s m err = (Some e, conn s)).
Proof.
  intros Hop.
  assert (Hsw : forall doc, RespondWithError_switch s m doc = (None, conn s)).
  { intros doc; unfold RespondWithError_switch; cbv zeta.
    destruct Hop as [-> | [-> | ->]]; reflexivity. }
  repeat split.
  - intros doc; unfold RespondToCommand; cbv zeta.
    destruct Hop as [-> | [-> | ->]]; reflexivity.
  - intros err; unfold RespondWithError; cbv zeta.
    destruct (SimpleBSONConvert _); [rewrite Hsw|]; reflexivity.
  - intros err doc Hd; unfold RespondWithError; cbv zeta; rewrite Hd; apply Hsw.
  - intros err e He; unfold RespondWithError; cbv zeta; rewrite He; reflexivity.
Qed.

(** C9: whatever the request and the argument, the connection after a call
    of RespondToCommand or RespondWithError holds what it held before
    followed by the frames the call wrote, and each of these frames carries
    a header whose ResponseTo is the RequestID of the request. *)
Theorem C9_reply_ResponseTo_is_RequestID (s : Session) (m : Message) :
  (forall doc,
     let c' := snd (RespondToCommand s m doc) in
     written c' = (written (conn s) ++ frames_written (conn s) c')%list /\
     Forall (fun f => ResponseTo (Header f) = RequestID (Header m))
            (frames_written (conn s) c')) /\
  (forall err,
     let c' := snd (RespondWithError s m err) in
     written c' = (written (conn s) ++ frames_written (conn s) c')%list /\
     Forall (fun f => ResponseTo (Header f) = RequestID (Header m))
            (frames_written (conn s) c')).
Proof.
  assert (Hsame : forall c : Conn,
            written c = (written c ++ frames_written c c)%list /\
            Forall (fun f => ResponseTo (Header f) = RequestID (Header m))
                   (frames_written c c)).
  { intros c; rewrite frames_written_nothing, app_nil_r; auto. }
  assert (Hsend : forall f, ResponseTo (Header f) = RequestID (Header m) ->
            let c' := snd (SendMessage f (conn s)) in
            written c' = (written (conn s) ++ frames_written (conn s) c')%list /\
            Forall (fun f => ResponseTo (Header f) = RequestID (Header m))
                   (frames_written (conn s) c')).
  { intros f Hf; cbv zeta; split; [apply written_extends_SendMessage|].
    destruct (frames_written_SendMessage f (conn s)) as [-> | ->]; auto. }
  split; cbv zeta.
  - intros doc.
    destruct (RespondToCommand_cases s m doc) as [H|[H|(f & Hf & H)]];
      rewrite H; cbn [snd];
      [apply Hsame | apply Hsame | apply Hsend; assumption].
  - intros err.
    destruct (RespondWithError_cases s m err) as [(e & H)|[H|(f & Hf & H)]];
      rewrite H; cbn [snd];
      [apply Hsame | apply Hsame | apply Hsend; assumption].
Qed.

End FramerProperties.

(** * Properties of RespondToCommandMakeBSON *)

Lemma args_pair_ind (P : list iface -> Prop) :
  P [] ->
  (forall a, P [a]) ->
  (forall a b rest, P rest -> P (a :: b :: rest)) ->
  forall args, P args.
Proof.
  intros Hnil Hone Hstep args.
  enough (H : P args /\ forall a, P (a :: args)) by apply H.
  induction args as [|b rest [IH1 IH2]]; split; auto.
Qed.

Lemma even_length_mod2 (n : nat) :
  Nat.even n = true -> (n mod 2 =? 1)%nat = false.
Proof.
  intros H; apply Nat.even_spec in H; destruct H as [k ->].
  rewrite Nat.mul_comm, Nat.Div0.mod_mul; reflexivity.
Qed.

Lemma odd_length_mod2 (n : nat) :
  Nat.odd n = true -> (n mod 2 =? 1)%nat = true.
Proof.
  intros H; apply Nat.odd_spec in H; destruct H as [k ->].
  rewrite Nat.add_comm, Nat.mul_comm, Nat.Div0.mod_add; reflexivity.
Qed.

Lemma well_formed_args_head (a b : iface) (rest : list iface) :
  well_formed_args (a :: b :: rest) -> exists name, a = IString name.
Proof.
  intros [_ H]; destruct (H 0%nat) as [name Hn]; cbn; try lia; auto.
  exists name; cbn in Hn; congruence.
Qed.

Lemma well_formed_args_tail (a b : iface) (rest : list iface) :
  well_formed_args (a :: b :: rest) -> well_formed_args rest.
Proof.
  intros [Hlen H]; split; [exact Hlen|].
  intros i Hi Hlt; apply (H (S (S i))); cbn; auto; lia.
Qed.

Lemma well_formed_args_not_single (a : iface) : ~ well_formed_args [a].
Proof. intros [Hlen _]; discriminate. Qed.

(** On a well-formed list the loop runs to its end, appending the given
    pairs in order and raising [gotOk] exactly when a name is ["ok"]. *)
Lemma RespondToCommandMakeBSON_loop_well_formed (args : list iface) :
  well_formed_args args ->
  forall doc gotOk,
    RespondToCommandMakeBSON_loop args doc gotOk
    = LoopDone (doc ++ given_pairs args)%list (gotOk || names_ok args).
Proof.
  induction args as [|a|a b rest IH] using args_pair_ind; intros Hwf doc gotOk.
  - cbn; now rewrite app_nil_r, orb_false_r.
  - now apply well_formed_args_not_single in Hwf.
  - destruct (well_formed_args_head Hwf) as [name ->].
    apply well_formed_args_tail in Hwf.
    cbn [RespondToCommandMakeBSON_loop given_pairs names_ok].
    rewrite (IH Hwf), <- app_assoc; cbn [app].
    destruct (String.eqb name "ok"), gotOk; reflexivity.
Qed.

Lemma given_pairs_length (args : list iface) :
  well_formed_args args -> length (given_pairs args) = Nat.div2 (length args).
Proof.
  induction args as [|a|a b rest IH] using args_pair_ind; intros Hwf.
  - reflexivity.
  - now apply well_formed_args_not_single in Hwf.
  - destruct (well_formed_args_head Hwf) as [name ->].
    cbn [given_pairs length Nat.div2]; f_equal.
    apply IH; eapply well_formed_args_tail; eassumption.
Qed.

Lemma given_pairs_nth (args : list iface) :
  well_formed_args args ->
  forall i name v,
    nth_error args (2 * i) = Some (IString name) ->
    nth_error args (2 * i + 1) = Some v ->
    nth_error (given_pairs args) i = Some {| Name := name; Value := v |}.
Proof.
  induction args as [|a|a b rest IH] using args_pair_ind;
    intros Hwf i name v Hn Hv.
  - now destruct i.
  - now apply well_formed_args_not_single in Hwf.
  - destruct (well_formed_args_head Hwf) as [name0 ->].
    apply well_formed_args_tail in Hwf.
    destruct i as [|i].
    + cbn in Hn, Hv; cbn; congruence.
    + replace (2 * S i)%nat with (S (S (2 * i))) in Hn by lia.
      replace (2 * S i + 1)%nat with (S (S (2 * i + 1))) in Hv by lia.
      cbn [nth_error] in Hn, Hv; cbn [given_pairs nth_error].
      now apply IH.
Qed.

Lemma names_ok_false_iff (args : list iface) :
  well_formed_args args ->
  (names_ok args = false <->
   forall i name, nth_error args (2 * i) = Some (IString name) -> name <> "ok").
Proof.
  induction args as [|a|a b rest IH] using args_pair_ind; intros Hwf.
  - split; [intros _ i name H; now destruct i | reflexivity].
  - now apply well_formed_args_not_single in Hwf.
  - destruct (well_formed_args_head Hwf) as [name0 ->].
    apply well_formed_args_tail in Hwf; specialize (IH Hwf).
    cbn [names_ok]; rewrite orb_false_iff, IH; split.
    + intros [H0 Hrest] i name Hn; destruct i as [|i].
      * cbn in Hn; injection Hn as <-.
        now apply String.eqb_neq.
      * replace (2 * S i)%nat with (S (S (2 * i))) in Hn by lia.
        eapply Hrest; exact Hn.
    + intros H; split.
      * apply String.eqb_neq, (H 0%nat); reflexivity.
      * intros i name Hn; apply (H (S i)).
        replace (2 * S i)%nat with (S (S (2 * i))) by lia; exact Hn.
Qed.

(** The loop never reads past the end of an even-length list. *)
Lemma RespondToCommandMakeBSON_loop_no_panic (args : list iface) :
  Nat.even (length args) = true ->
  forall doc gotOk, RespondToCommandMakeBSON_loop args doc gotOk <> LoopPanic.
Proof.
  induction args as [|a|a b rest IH] using args_pair_ind; intros Hlen doc gotOk.
  - discriminate.
  - discriminate.
  - destruct a; cbn; try discriminate. now apply IH.
Qed.

(** A name that is not a string stops the loop with an error. *)
Lemma RespondToCommandMakeBSON_loop_non_string (args : list iface) :
  Nat.even (length args) = true ->
  (exists i v, Nat.even i = true /\ nth_error args i = Some v /\
               forall name, v <> IString name) ->
  forall doc gotOk, exists e, RespondToCommandMakeBSON_loop args doc gotOk = LoopErr e.
Proof.
  induction args as [|a|a b rest IH] using args_pair_ind;
    intros Hlen (i & v & Hi & Hv & Hns) doc gotOk.
  - now destruct i.
  - discriminate.
  - destruct i as [|[|i]].
    + cbn in Hv; injection Hv as ->.
      destruct v; cbn; eauto. now elim (Hns s).
    + discriminate.
    + destruct a; cbn; eauto.
      apply IH; [exact Hlen|]. exists i, v; auto.
Qed.

(** The method always returns: its index arithmetic cannot panic. *)
Lemma RespondToCommandMakeBSON_doc_returns (args : list iface) :
  RespondToCommandMakeBSON_doc args <> None.
Proof.
  unfold RespondToCommandMakeBSON_doc.
  destruct (Nat.even (length args)) eqn:Hlen.
  - rewrite (even_length_mod2 _ Hlen).
    pose proof (RespondToCommandMakeBSON_loop_no_panic args Hlen [] false).
    destruct (RespondToCommandMakeBSON_loop args [] false); congruence.
  - rewrite odd_length_mod2; [discriminate|].
    now rewrite <- Nat.negb_even, Hlen.
Qed.

(** The document assembled from a well-formed list. *)
Lemma RespondToCommandMakeBSON_doc_well_formed (args : list iface) :
  well_formed_args args ->
  RespondToCommandMakeBSON_doc args
  = Some (Ok (given_pairs args ++
              if names_ok args then [] else [ {| Name := "ok"; Value := IInt 1 |} ])%list).
Proof.
  intros Hwf; unfold RespondToCommandMakeBSON_doc.
  rewrite (even_length_mod2 _ (proj1 Hwf)).
  rewrite (RespondToCommandMakeBSON_loop_well_formed Hwf); cbn [app orb negb].
  destruct (names_ok args); cbn [negb]; [now rewrite app_nil_r | reflexivity].
Qed.

Section MakeBSONProperties.

Context {codec : DocumentCodec}.

(** C5: from an even-length argument list with a string at every even
    index, RespondToCommandMakeBSON assembles (and then converts and sends
    through RespondToCommand) a document that contains every given
    name/value pair, and that consists of the given pairs and one more
    element [{ok:1}] if and only if none of the given names is ["ok"];
    otherwise it has exactly as many elements as pairs were given. *)
Theorem C5_MakeBSON_pairs_and_ok (args : list iface) :
  well_formed_args args ->
  exists doc,
    RespondToCommandMakeBSON_doc args = Some (Ok doc) /\
    (forall s m,
       RespondToCommandMakeBSON s m args
       = Some (match SimpleBSONConvert doc with
               | Err e => (Some e, conn s)
               | Ok doc2 => RespondToCommand s m doc2
               end)) /\
    (forall i name v,
       nth_error args (2 * i) = Some (IString name) ->
       nth_error args (2 * i + 1) = Some v ->
       In {| Name := name; Value := v |} doc) /\
    ((exists front, doc = (front ++ [ {| Name := "ok"; Value := IInt 1 |} ])%list /\
                    length front = Nat.div2 (length args))
     <-> (forall i name, nth_error args (2 * i) = Some (IString name) -> name <> "ok")) /\
    ((exists i, nth_error args (2 * i) = Some (IString "ok")) ->
     length doc = Nat.div2 (length args)).
Proof.
  intros Hwf.
  pose proof (RespondToCommandMakeBSON_doc_well_formed Hwf) as Hdoc.
  pose proof (given_pairs_length Hwf) as Hlen.
  pose proof (names_ok_false_iff Hwf) as Hok.
  eexists; split; [exact Hdoc|]; repeat split.
  - intros s m; unfold RespondToCommandMakeBSON; rewrite Hdoc.
    destruct (SimpleBSONConvert _); reflexivity.
  - intros i name v Hn Hv; apply in_or_app; left.
    eapply nth_error_In, given_pairs_nth; eassumption.
  - intros (front & Hfront & Hflen); apply Hok.
    destruct (names_ok args); [|reflexivity].
    apply (f_equal (@length _)) in Hfront.
    rewrite !length_app in Hfront; cbn in Hfront; lia.
  - intros Hnames; apply Hok in Hnames; rewrite Hnames.
    exists (given_pairs args); auto.
  - intros (i & Hi).
    destruct (names_ok args) eqn:E.
    + now rewrite app_nil_r.
    + exfalso; clear Hok.
      apply (proj1 (names_ok_false_iff Hwf) E i "ok" Hi); reflexivity.
Qed.

(** C6: for an argument list of odd length, and for an argument list with a
    value that is not a string at some even index, RespondToCommandMakeBSON
    returns an error and leaves the connection as it was: nothing is
    written. *)
Theorem C6_MakeBSON_argument_errors (s : Session) (m : Message) (args : list iface) :
  Nat.odd (length args) = true \/
  (exists i v, Nat.even i = true /\ nth_error args i = Some v /\
               forall name, v <> IString name) ->
  exists e, RespondToCommandMakeBSON s m args = Some (Some e, conn s).
Proof.
  intros H.
  enough (exists e, RespondToCommandMakeBSON_doc args = Some (Err e)) as [e He].
  { exists e; unfold RespondToCommandMakeBSON; rewrite He; reflexivity. }
  unfold RespondToCommandMakeBSON_doc.
  destruct (Nat.odd (length args)) eqn:Hodd.
  - rewrite (odd_length_mod2 _ Hodd); eauto.
  - destruct H as [H|H]; [discriminate|].
    assert (Hlen : Nat.even (length args) = true).
    { rewrite <- Nat.negb_odd, Hodd; reflexivity. }
    rewrite (even_length_mod2 _ Hlen).
    destruct (RespondToCommandMakeBSON_loop_non_string args Hlen H [] false)
      as [e ->]; eauto.
Qed.

(** C10: in the document assembled from a well-formed argument list, the
    i-th element is the i-th given pair, and when no given name is ["ok"]
    the element after the last pair is [{ok:1}] (name ["ok"], integer 1) and
    is the last one; for the empty argument list the document is exactly
    [{ok:1}]. *)
Theorem C10_MakeBSON_order (args : list iface) :
  well_formed_args args ->
  exists doc,
    RespondToCommandMakeBSON_doc args = Some (Ok doc) /\
    (forall i name v,
       nth_error args (2 * i) = Some (IString name) ->
       nth_error args (2 * i + 1) = Some v ->
       nth_error doc i = Some {| Name := name; Value := v |}) /\
    ((forall i name, nth_error args (2 * i) = Some (IString name) -> name <> "ok") ->
     nth_error doc (Nat.div2 (length args)) = Some {| Name := "ok"; Value := IInt 1 |} /\
     length doc = S (Nat.div2 (length args))) /\
    RespondToCommandMakeBSON_doc [] = Some (Ok [ {| Name := "ok"; Value := IInt 1 |} ]).
Proof.
  intros Hwf.
  pose proof (RespondToCommandMakeBSON_doc_well_formed Hwf) as Hdoc.
  pose proof (given_pairs_length Hwf) as Hlen.
  eexists; split; [exact Hdoc|]; repeat split.
  - intros i name v Hn Hv.
    pose proof (given_pairs_nth Hwf _ Hn Hv) as Hnth.
    rewrite nth_error_app1; [exact Hnth|].
    apply nth_error_Some; congruence.
  - apply (names_ok_false_iff Hwf) in H; rewrite H.
    rewrite nth_error_app2 by lia.
    rewrite Hlen, Nat.sub_diag; reflexivity.
  - apply (names_ok_false_iff Hwf) in H; rewrite H.
    rewrite length_app; cbn; lia.
Qed.

End MakeBSONProperties.

(** * Properties of the server lifecycle *)

Lemma Run_startup_ok (env : Env) (cfg : ServerConfig) (tlsConfig : option tls_Config)
    (ln : net_Listener) (events : list select_event) :
  Run_tlsConfig env cfg = Ok tlsConfig ->
  net_Listen env "tcp" (BindHost cfg ++ ":" ++ verb_d (BindPort cfg)) = Ok ln ->
  Run env events (initial_world (NewServer cfg))
  = defer (on_chan initChan set_initChan chan_close)
      (defer (on_chan doneChan set_doneChan chan_close)
         (defer (set_listenerOpen false)
            (Run_acceptLoop cfg tlsConfig None events)))
      (listening_world cfg ln).
Proof.
  intros Htls Hln; unfold Run; cbn [initial_world NewServer srv config].
  rewrite Htls, Hln; reflexivity.
Qed.

(** The accept loop never panics; it only starts session tasks and notes
    the shutdown request. *)
Lemma Run_acceptLoop_outcome (cfg : ServerConfig) (tlsConfig : option tls_Config)
    (err : option error) (events : list select_event) :
  forall w,
    match Run_acceptLoop cfg tlsConfig err events w with
    | Returned _ w' | Blocked w' =>
        initChan (srv w') = initChan (srv w) /\
        doneChan (srv w') = doneChan (srv w) /\
        listenerOpen w' = listenerOpen w
    | Panicked _ => False
    end.
Proof.
  induction events as [|ev rest IH]; intros w; cbn [Run_acceptLoop].
  - auto.
  - destruct ev as [|connectionEvent].
    + cbn; auto.
    + destruct (accepted_err connectionEvent); [cbn; auto|].
      unfold bind at 1, go_Run at 1.
      match goal with |- context [Run_acceptLoop _ _ _ rest ?w1] =>
        specialize (IH w1); destruct (Run_acceptLoop cfg tlsConfig err rest w1)
      end; cbn in IH; auto.
Qed.

(** After a successful start, every return of [Run] has closed the
    listening socket and fired the done signal, once. *)
Lemma Run_listening_exit_fires_done (env : Env) (cfg : ServerConfig)
    (tlsConfig : option tls_Config) (ln : net_Listener)
    (events : list select_event) :
  Run_tlsConfig env cfg = Ok tlsConfig ->
  net_Listen env "tcp" (BindHost cfg ++ ":" ++ verb_d (BindPort cfg)) = Ok ln ->
  match Run env events (initial_world (NewServer cfg)) with
  | Returned _ w =>
      doneChan (srv w) = {| buffer := []; capacity := 0; closed := true |} /\
      listenerOpen w = false /\
      closed (initChan (srv w)) = true
  | Blocked w =>
      closed (doneChan (srv w)) = false /\ listenerOpen w = true
  | Panicked _ => False
  end.
Proof.
  intros Htls Hln; rewrite (Run_startup_ok env cfg events Htls Hln).
  pose proof (Run_acceptLoop_outcome cfg tlsConfig None events
                (listening_world cfg ln)) as H.
  unfold defer at 1 2 3.
  destruct (Run_acceptLoop cfg tlsConfig None events (listening_world cfg ln))
    as [r w|w|w]; [| |contradiction].
  - destruct H as (Hi & Hd & Hl).
    unfold set_listenerOpen, on_chan; cbn [srv listenerOpen].
    rewrite Hd; cbn. rewrite Hi; cbn. auto.
  - destruct H as (Hi & Hd & Hl). rewrite Hd, Hl; auto.
Qed.

(** [Close] completes on a world in which the done signal has fired and
    the shutdown request has not. *)
Lemma Close_completes (w : World) :
  closed (killChan (srv w)) = false ->
  buffer (doneChan (srv w)) = [] ->
  closed (doneChan (srv w)) = true ->
  exists w', Close w = Returned tt w'.
Proof.
  intros Hk Hb Hd; unfold Close, bind, on_chan, chan_close, chan_recv.
  rewrite Hk; cbn. rewrite Hb, Hd; cbn. eauto.
Qed.

(** [Close] never completes on a world in which the done signal has not
    fired: it blocks, or panics on a shutdown request fired twice. *)
Lemma Close_needs_done (w : World) :
  buffer (doneChan (srv w)) = [] ->
  closed (doneChan (srv w)) = false ->
  forall w', Close w <> Returned tt w'.
Proof.
  intros Hb Hd w'; unfold Close, bind, on_chan, chan_close, chan_recv.
  destruct (closed (killChan (srv w))); cbn; [discriminate|].
  rewrite Hb, Hd; discriminate.
Qed.

(** The other start-up failures leave the done signal unfired as well. *)
Lemma Run_startup_failure_done_unfired (env : Env) (cfg : ServerConfig)
    (events : list select_event) :
  (exists e, Run_tlsConfig env cfg = Err e) \/
  (exists tlsConfig e,
      Run_tlsConfig env cfg = Ok tlsConfig /\
      net_Listen env "tcp" (BindHost cfg ++ ":" ++ verb_d (BindPort cfg)) = Err e) ->
  exists returnErr w,
    Run env events (initial_world (NewServer cfg)) = Returned (Some returnErr) w /\
    chan_recv (InitChannel (srv w))
    = OpOk (Some (Some returnErr),
            {| buffer := []; capacity := 1; closed := true |}) /\
    doneChan (srv w) = make_chan unit 0.
Proof.
  intros [(e & Htls)|(tlsConfig & e & Htls & Hln)];
    unfold Run; cbn [initial_world NewServer srv config];
    rewrite Htls; [|rewrite Hln]; cbn; eauto.
Qed.

(** C2 (evaluation at the failing input): with TLS enabled and no
    certificate pair configured, Run returns the "no ssl keys configured"
    error and delivers it on the ready channel, but the done signal is never
    fired, so a subsequent Close fires the shutdown request and then blocks
    for ever. *)
Theorem C2_Run_no_ssl_keys_done_unfired (env : Env) (cfg : ServerConfig)
    (events : list select_event) :
  UseSSL cfg = true -> SSLKeys cfg = [] ->
  exists w w',
    Run env events (initial_world (NewServer cfg))
    = Returned (Some (fmt_Errorf "no ssl keys configured")) w /\
    chan_recv (InitChannel (srv w))
    = OpOk (Some (Some (fmt_Errorf "no ssl keys configured")),
            {| buffer := []; capacity := 1; closed := true |}) /\
    closed (doneChan (srv w)) = false /\
    Close w = Blocked w' /\
    closed (killChan (srv w')) = true /\
    closed (doneChan (srv w')) = false.
Proof.
  intros Hssl Hkeys; unfold Run; cbn [initial_world NewServer srv config].
  unfold Run_tlsConfig; rewrite Hssl, Hkeys; cbn.
  do 2 eexists; repeat split.
Qed.

(** An accept loop that meets a failed accept after any number of
    successful ones returns an error built from [err], the variable assigned
    by [net.Listen], which is nil. *)
Lemma Run_acceptLoop_accept_error (cfg : ServerConfig)
    (tlsConfig : option tls_Config) (err : option error)
    (before : list net_Conn) (conn : net_Conn) (e : error)
    (rest : list select_event) :
  forall w, exists w',
    Run_acceptLoop cfg tlsConfig err
      (map (fun c => IncomingConnection {| accepted_conn := c; accepted_err := None |})
           before
       ++ IncomingConnection {| accepted_conn := conn; accepted_err := Some e |}
       :: rest)%list w
    = Returned (Some (NewStackErrorf ("could not accept in proxy: "
                                      ++ verb_s_error err))) w' /\
    srv w' = srv w /\ listenerOpen w' = listenerOpen w.
Proof.
  induction before as [|c before IH]; intros w; cbn [map app Run_acceptLoop].
  - cbn; eauto.
  - cbn [accepted_err accepted_conn]. unfold bind at 1, go_Run at 1.
    match goal with |- context [Run_acceptLoop _ _ _ _ ?w1] =>
      destruct (IH w1) as (w' & -> & Hs & Hl)
    end.
    exists w'; auto.
Qed.

(** C4 (evaluation at the failing input): when the background accept
    reports an error [e], after any number of successful accepts, Run
    returns an error whose message is the constant text
    "could not accept in proxy: %!s(<nil>)": it is formatted from the nil
    error variable left by net.Listen, not from [e], whose message is
    therefore lost. *)
Theorem C4_Run_accept_error_message (env : Env) (cfg : ServerConfig)
    (tlsConfig : option tls_Config) (ln : net_Listener)
    (before : list net_Conn) (conn : net_Conn) (e : error)
    (rest : list select_event) :
  Run_tlsConfig env cfg = Ok tlsConfig ->
  net_Listen env "tcp" (BindHost cfg ++ ":" ++ verb_d (BindPort cfg)) = Ok ln ->
  exists returnErr w,
    Run env
      (map (fun c => IncomingConnection {| accepted_conn := c; accepted_err := None |})
           before
       ++ IncomingConnection {| accepted_conn := conn; accepted_err := Some e |}
       :: rest)%list
      (initial_world (NewServer cfg))
    = Returned (Some returnErr) w /\
    Error returnErr = "could not accept in proxy: %!s(<nil>)".
Proof.
  intros Htls Hln; rewrite (Run_startup_ok env cfg _ Htls Hln).
  destruct (Run_acceptLoop_accept_error cfg tlsConfig None before conn e rest
              (listening_world cfg ln)) as (w' & Heq & Hs & Hl).
  unfold defer at 1 2 3; rewrite Heq.
  unfold set_listenerOpen, on_chan; cbn [srv listenerOpen].
  rewrite Hs; cbn. eauto.
Qed.

(** * Concrete runs *)

(** On a healthy connection the replying opcodes do write one frame. *)
Lemma RespondToCommand_writes_one_frame {codec : DocumentCodec}
    (s : Session) (m : Message) (doc : SimpleBSON) :
  writeErr (conn s) = None ->
  OpCode (Header m) = OP_QUERY \/ OpCode (Header m) = OP_COMMAND \/
  OpCode (Header m) = OP_MSG ->
  exists f, fst (RespondToCommand s m doc) = None /\
            frames_written (conn s) (snd (RespondToCommand s m doc)) = [f] /\
            ResponseTo (Header f) = RequestID (Header m).
Proof.
  intros Hw Hop.
  assert (exists f, ResponseTo (Header f) = RequestID (Header m) /\
                    RespondToCommand s m doc = SendMessage f (conn s))
    as (f & Hf & ->).
  { unfold RespondToCommand; cbv zeta.
    destruct Hop as [-> | [-> | ->]];
      eexists; (split; [|reflexivity]); reflexivity. }
  exists f; rewrite SendMessage_healthy by assumption; cbn [fst snd].
  repeat split; [|exact Hf].
  unfold frames_written; cbn [written].
  now rewrite skipn_app, skipn_all, Nat.sub_diag.
Qed.

Lemma well_formed_args_one_pair (name : string) (v : iface) :
  well_formed_args [IString name; v].
Proof.
  split; [reflexivity|].
  intros [|[|i]] Hi Hlt; cbn in *; [eauto | discriminate | lia].
Qed.

Lemma C1_witness :
  OpCode (Header (request OP_GET_MORE 5)) = OP_GET_MORE /\
  RespondToCommand fresh_session (request OP_GET_MORE 5)
    ([ {| Name := "cursor"; Value := IInt 0 |} ] : @SimpleBSON plain_codec)
  = (Some ErrUnknownOpcode, conn fresh_session).
Proof.
  split; [reflexivity|].
  exact (proj1 (@C1_RespondToCommand_GET_MORE_unknown_opcode plain_codec
                  fresh_session (request OP_GET_MORE 5)
                  [ {| Name := "cursor"; Value := IInt 0 |} ] eq_refl)).
Defined.

Lemma C2_witness :
  UseSSL tls_config_without_keys = true /\
  SSLKeys tls_config_without_keys = [] /\
  exists w w',
    Run friendly_env [] (initial_world (NewServer tls_config_without_keys))
    = Returned (Some (fmt_Errorf "no ssl keys configured")) w /\
    chan_recv (InitChannel (srv w))
    = OpOk (Some (Some (fmt_Errorf "no ssl keys configured")),
            {| buffer := []; capacity := 1; closed := true |}) /\
    closed (doneChan (srv w)) = false /\
    Close w = Blocked w' /\
    closed (killChan (srv w')) = true /\
    closed (doneChan (srv w')) = false.
Proof.
  split; [reflexivity|]; split; [reflexivity|].
  exact (C2_Run_no_ssl_keys_done_unfired friendly_env tls_config_without_keys []
           eq_refl eq_refl).
Defined.

Lemma C3_witness :
  OpCode (Header (request OP_COMMAND 7)) = OP_COMMAND /\
  (forall doc : @SimpleBSON plain_codec,
     sends fresh_session (fun f => command_reply_of f doc)
           (RespondToCommand fresh_session (request OP_COMMAND 7) doc)) /\
  OpCode (Header (request OP_COMMAND_REPLY 7)) = OP_COMMAND_REPLY /\
  (forall doc : @SimpleBSON plain_codec,
     RespondToCommand fresh_session (request OP_COMMAND_REPLY 7) doc
     = (Some ErrUnknownOpcode, conn fresh_session)).
Proof.
  split; [reflexivity|]; split; [|split; [reflexivity|]].
  - exact (proj1 (proj1 (@C3_COMMAND_command_reply plain_codec fresh_session
                           (request OP_COMMAND 7)) eq_refl)).
  - exact (proj1 (proj2 (@C3_COMMAND_command_reply plain_codec fresh_session
                           (request OP_COMMAND_REPLY 7)) eq_refl)).
Defined.

Lemma C7_witness :
  writeErr (conn fresh_session) = None /\
  In (OpCode (Header (request OP_GET_MORE 5)))
     [OP_QUERY; OP_GET_MORE; OP_COMMAND; OP_MSG] /\
  exists f,
    RespondWithError fresh_session (request OP_GET_MORE 5)
      (Some (errors_New "cursor not found"))
    = (None, {| written := [f]; writeErr := None |}) /\
    reply_documents f
    = [ ([ {| Name := "ok"; Value := IInt 0 |};
           {| Name := "errmsg"; Value := IString "cursor not found" |} ]
         : @SimpleBSON plain_codec) ].
Proof.
  assert (Hop : In (OpCode (Header (request OP_GET_MORE 5)))
                   [OP_QUERY; OP_GET_MORE; OP_COMMAND; OP_MSG])
    by (right; left; reflexivity).
  split; [reflexivity|]; split; [exact Hop|].
  exact (proj2 (proj2 (@C7_RespondWithError_reply_document plain_codec
                         fresh_session (request OP_GET_MORE 5) eq_refl Hop))
           (errors_New "cursor not found") eq_refl).
Defined.

(** At OP_COMMAND_REPLY neither respond path sends a command reply frame:
    both return the unknown-opcode error; and at OP_COMMAND the error path
    sends none for an error whose document does not convert. *)
Lemma C3_counterexample :
  (forall doc : @SimpleBSON plain_codec,
     ~ sends fresh_session (fun f => command_reply_of f doc)
         (RespondToCommand fresh_session (request OP_COMMAND_REPLY 7)
            [ {| Name := "ok"; Value := IInt 1 |} ])) /\
  (forall doc : @SimpleBSON plain_codec,
     ~ sends fresh_session (fun f => command_reply_of f doc)
         (RespondWithError fresh_session (request OP_COMMAND_REPLY 7) None)) /\
  (forall doc : @SimpleBSON plain_codec,
     ~ sends fresh_session (fun f => command_reply_of f doc)
         (RespondWithError fresh_session (request OP_COMMAND 7)
            (Some unencodable_error))).
Proof.
  repeat split; intros doc (f & _ & H); vm_compute in H; discriminate.
Qed.

Lemma C4_witness :
  Run_tlsConfig friendly_env plain_config = Ok None /\
  net_Listen friendly_env "tcp"
    (BindHost plain_config ++ ":" ++ verb_d (BindPort plain_config))
  = Ok {| ln_Addr := "127.0.0.1:0" |} /\
  (exists returnErr w,
     Run friendly_env
       (map (fun c => IncomingConnection {| accepted_conn := c; accepted_err := None |})
            [tcp_peer]
        ++ [IncomingConnection
              {| accepted_conn := tcp_peer;
                 accepted_err := Some (errors_New "too many open files") |}])%list
       (initial_world (NewServer plain_config))
     = Returned (Some returnErr) w /\
     Error returnErr = "could not accept in proxy: %!s(<nil>)") /\
  contains "too many open files" "could not accept in proxy: %!s(<nil>)" = false.
Proof.
  split; [reflexivity|]; split; [reflexivity|]; split; [|reflexivity].
  exact (C4_Run_accept_error_message friendly_env plain_config
           [tcp_peer] tcp_peer (errors_New "too many open files") []
           (tlsConfig := None) (ln := {| ln_Addr := "127.0.0.1:0" |})
           eq_refl eq_refl).
Defined.

Lemma C5_witness :
  well_formed_args [IString "n"; IInt 3] /\
  exists doc,
    RespondToCommandMakeBSON_doc [IString "n"; IInt 3] = Some (Ok doc) /\
    In {| Name := "n"; Value := IInt 3 |} doc /\
    In {| Name := "ok"; Value := IInt 1 |} doc.
Proof.
  split; [apply well_formed_args_one_pair|].
  destruct (@C5_MakeBSON_pairs_and_ok plain_codec [IString "n"; IInt 3]
              (well_formed_args_one_pair "n" (IInt 3)))
    as (doc & Hdoc & _ & Hin & Hok & _).
  exists doc; split; [exact Hdoc|]; split.
  - apply (Hin 0%nat); reflexivity.
  - destruct (proj2 Hok) as (front & -> & _).
    + intros [|i] name H.
      * cbn in H; injection H as <-; discriminate.
      * replace (2 * S i)%nat with (S (S (2 * i))) in H by lia.
        revert H; generalize (2 * i)%nat; intros [|k] H; cbn in H; discriminate.
    + apply in_or_app; right; left; reflexivity.
Defined.

Lemma C6_witness :
  Nat.odd (length [IString "n"; IInt 3; IInt 4]) = true /\
  exists e,
    RespondToCommandMakeBSON fresh_session (request OP_QUERY 5)
      [IString "n"; IInt 3; IInt 4]
    = Some (Some e, conn fresh_session).
Proof.
  split; [reflexivity|].
  exact (@C6_MakeBSON_argument_errors plain_codec fresh_session
           (request OP_QUERY 5) [IString "n"; IInt 3; IInt 4]
           (or_introl eq_refl)).
Defined.

Lemma C8_witness :
  (OpCode (Header (request OP_INSERT 3)) = OP_INSERT \/
   OpCode (Header (request OP_INSERT 3)) = OP_UPDATE \/
   OpCode (Header (request OP_INSERT 3)) = OP_DELETE) /\
  forall doc : @SimpleBSON plain_codec,
    RespondToCommand fresh_session (request OP_INSERT 3) doc
    = (None, conn fresh_session).
Proof.
  split; [left; reflexivity|].
  exact (proj1 (@C8_legacy_writes_no_reply plain_codec fresh_session
                  (request OP_INSERT 3) (or_introl eq_refl))).
Defined.

(** At OP_INSERT the error path returns an error, not nil, for an error
    whose own document does not convert: the error it returns is the
    conversion error. *)
Lemma C8_counterexample :
  fst (RespondWithError fresh_session (request OP_INSERT 3) (Some unencodable_error))
  <> None /\
  exists myErr,
    @SimpleBSONConvert plain_codec (RespondWithError_errBSON (Some unencodable_error))
    = Err myErr /\
    RespondWithError fresh_session (request OP_INSERT 3) (Some unencodable_error)
    = (Some myErr, conn fresh_session).
Proof.
  split; [discriminate|].
  eexists; split; reflexivity.
Qed.

Lemma C10_witness :
  well_formed_args [IString "n"; IInt 3] /\
  exists doc,
    RespondToCommandMakeBSON_doc [IString "n"; IInt 3] = Some (Ok doc) /\
    nth_error doc 0 = Some {| Name := "n"; Value := IInt 3 |} /\
    RespondToCommandMakeBSON_doc [] = Some (Ok [ {| Name := "ok"; Value := IInt 1 |} ]).
Proof.
  split; [apply well_formed_args_one_pair|].
  destruct (C10_MakeBSON_order (well_formed_args_one_pair "n" (IInt 3)))
    as (doc & Hdoc & Hnth & _ & Hnil).
  exists doc; split; [exact Hdoc|]; split; [|exact Hnil].
  apply (Hnth 0%nat); reflexivity.
Defined.

(** * Further properties of the response framer *)

Section FramerFurther.

Context {codec : DocumentCodec}.

Ltac split_opcode :=
  repeat match goal with
         | |- context [Z.eqb ?a ?b] => destruct (Z.eqb_spec a b)
         end;
  cbn [orb andb negb]; try reflexivity; try congruence.

(** X1: except for OP_GET_MORE requests, RespondWithError is RespondToCommand
    applied to the converted document of the error; a failed conversion is
    returned at once. *)
Theorem X1_RespondWithError_is_RespondToCommand
    (s : Session) (m : Message) (err : option error) :
  OpCode (Header m) <> OP_GET_MORE ->
  RespondWithError s m err =
    match SimpleBSONConvert (RespondWithError_errBSON err) with
    | Ok doc => RespondToCommand s m doc
    | Err e => (Some e, conn s)
    end.
Proof.
  intros Hop; unfold RespondWithError; cbv zeta.
  destruct (SimpleBSONConvert _) as [doc|e]; [|reflexivity].
  unfold RespondWithError_switch, RespondToCommand; cbv zeta.
  split_opcode.
Qed.

(** X2: an OP_MSG request is answered, on both paths, by one OP_MSG message
    with flags 0 whose only section is a body section holding the document
    (on the error path, the converted document of the error); on a healthy
    connection the call returns nil and that message is the one frame
    added. *)
Theorem X2_respond_MSG_one_body_section (s : Session) (m : Message) :
  OpCode (Header m) = OP_MSG ->
  (forall doc,
     sends s (msg_reply_of (RequestID (Header m)) doc) (RespondToCommand s m doc)) /\
  (forall err doc,
     SimpleBSONConvert (RespondWithError_errBSON err) = Ok doc ->
     sends s (msg_reply_of (RequestID (Header m)) doc) (RespondWithError s m err)) /\
  (writeErr (conn s) = None ->
   forall doc, exists f,
     msg_reply_of (RequestID (Header m)) doc f /\
     RespondToCommand s m doc
     = (None, {| written := (written (conn s) ++ [f])%list; writeErr := None |})).
Proof.
  intros Hop.
  assert (Hf : forall doc,
            msg_reply_of (RequestID (Header m)) doc
                         (msg_frame (RequestID (Header m)) doc)).
  { intros doc; eexists; split; [reflexivity|]; cbn; auto. }
  repeat split.
  - intros doc; exists (msg_frame (RequestID (Header m)) doc); split; [apply Hf|].
    apply (respond_MSG s m doc Hop).
  - intros err doc Hd; exists (msg_frame (RequestID (Header m)) doc).
    split; [apply Hf|].
    unfold RespondWithError; cbv zeta; rewrite Hd.
    apply (respond_MSG s m doc Hop).
  - intros Hw doc; exists (msg_frame (RequestID (Header m)) doc); split; [apply Hf|].
    rewrite (proj1 (respond_MSG s m doc Hop)).
    now apply SendMessage_healthy.
Qed.

(** X3: a request whose opcode is none of the seven handled ones gets the
    unknown-opcode error from RespondToCommand, and from RespondWithError
    unless the document of the error fails to convert, in which case the
    conversion error is returned instead; nothing is written. *)
Theorem X3_respond_unknown_opcode (s : Session) (m : Message) :
  ~ In (OpCode (Header m))
       [OP_QUERY; OP_GET_MORE; OP_INSERT; OP_UPDATE; OP_DELETE; OP_COMMAND; OP_MSG] ->
  (forall doc, RespondToCommand s m doc = (Some ErrUnknownOpcode, conn s)) /\
  (forall err,
     RespondWithError s m err
     = (Some match SimpleBSONConvert (RespondWithError_errBSON err) with
             | Ok _ => ErrUnknownOpcode
             | Err e => e
             end,
        conn s)).
Proof.
  intros Hop; split.
  - intros doc; apply (respond_unknown_opcode s m doc Hop).
  - intros err; unfold RespondWithError; cbv zeta.
    destruct (SimpleBSONConvert _) as [doc|e]; [|reflexivity].
    apply (respond_unknown_opcode s m doc Hop).
Qed.

(** X4: a respond call adds at most one frame to the connection, and adds
    none when it returns an error: then the connection is exactly as it
    was. *)
Theorem X4_respond_error_writes_nothing (s : Session) (m : Message) :
  let quiet_on_error (r : option error * Conn) :=
    match fst r with
    | Some _ => snd r = conn s
    | None => snd r = conn s \/
              exists f, written (snd r) = (written (conn s) ++ [f])%list
    end in
  (forall doc, quiet_on_error (RespondToCommand s m doc)) /\
  (forall err, quiet_on_error (RespondWithError s m err)) /\
  (forall args,
     match RespondToCommandMakeBSON s m args with
     | Some r => quiet_on_error r
     | None => False
     end).
Proof.
  cbv zeta.
  assert (Hsend : forall f,
            match fst (SendMessage f (conn s)) with
            | Some _ => snd (SendMessage f (conn s)) = conn s
            | None => snd (SendMessage f (conn s)) = conn s \/
                      exists f', written (snd (SendMessage f (conn s)))
                                 = (written (conn s) ++ [f'])%list
            end).
  { intros f; unfold SendMessage; destruct (writeErr (conn s)); cbn; eauto. }
  assert (H1 : forall doc,
            match fst (RespondToCommand s m doc) with
            | Some _ => snd (RespondToCommand s m doc) = conn s
            | None => snd (RespondToCommand s m doc) = conn s \/
                      exists f, written (snd (RespondToCommand s m doc))
                                = (written (conn s) ++ [f])%list
            end).
  { intros doc.
    destruct (RespondToCommand_cases s m doc) as [H|[H|(f & _ & H)]];
      rewrite H; cbn [fst snd]; [reflexivity | left; reflexivity | apply Hsend]. }
  repeat split.
  - exact H1.
  - intros err.
    destruct (RespondWithError_cases s m err) as [(e & H)|[H|(f & _ & H)]];
      rewrite H; cbn [fst snd]; [reflexivity | left; reflexivity | apply Hsend].
  - intros args; unfold RespondToCommandMakeBSON.
    pose proof (RespondToCommandMakeBSON_doc_returns args) as Hret.
    destruct (RespondToCommandMakeBSON_doc args) as [[doc|e]|]; [| |congruence].
    + destruct (SimpleBSONConvert doc) as [doc2|e]; [apply H1|reflexivity].
    + reflexivity.
Qed.

(** X5: RespondToCommandMakeBSON never panics: whatever the arguments, its
    read of [args[idx+1]] stays within the list. *)
Theorem X5_MakeBSON_never_panics (s : Session) (m : Message) (args : list iface) :
  RespondToCommandMakeBSON s m args <> None.
Proof.
  unfold RespondToCommandMakeBSON.
  pose proof (RespondToCommandMakeBSON_doc_returns args) as Hret.
  destruct (RespondToCommandMakeBSON_doc args) as [[doc|e]|]; [| |congruence].
  - destruct (SimpleBSONConvert doc); discriminate.
  - discriminate.
Qed.

End FramerFurther.

(** * Further properties of RespondToCommandMakeBSON *)

(** A loop that ends normally has only met strings at the even indices. *)
Lemma RespondToCommandMakeBSON_loop_done_well_formed (args : list iface) :
  Nat.even (length args) = true ->
  forall doc gotOk doc' gotOk',
    RespondToCommandMakeBSON_loop args doc gotOk = LoopDone doc' gotOk' ->
    well_formed_args args.
Proof.
  induction args as [|a|a b rest IH] using args_pair_ind;
    intros Hlen doc gotOk doc' gotOk' Hloop.
  - split; [reflexivity|]; intros i _ Hlt; cbn in Hlt; lia.
  - discriminate.
  - destruct a; cbn in Hloop; try discriminate.
    destruct (IH Hlen _ _ _ _ Hloop) as [_ Hrest].
    split; [exact Hlen|].
    intros [|[|i]] Hi Hlt.
    + eexists; reflexivity.
    + discriminate.
    + apply Hrest; [exact Hi | cbn in Hlt; lia].
Qed.

(** The loop stops at the first name that is not a string, whatever
    follows it. *)
Lemma RespondToCommandMakeBSON_loop_first_non_string
    (good : list iface) (v : iface) (rest : list iface) :
  well_formed_args good ->
  (forall name, v <> IString name) ->
  forall doc gotOk,
    RespondToCommandMakeBSON_loop (good ++ v :: rest) doc gotOk
    = LoopErr (fmt_Errorf ("got a non string for bson name: " ++ verb_t v)).
Proof.
  induction good as [|a|a b good IH] using args_pair_ind; intros Hwf Hv doc gotOk.
  - destruct v; cbn; try reflexivity. now elim (Hv s).
  - now apply well_formed_args_not_single in Hwf.
  - destruct (well_formed_args_head Hwf) as [name ->].
    apply well_formed_args_tail in Hwf.
    cbn [app RespondToCommandMakeBSON_loop]. now apply IH.
Qed.

Section MakeBSONFurther.

Context {codec : DocumentCodec}.

(** X6: which error RespondToCommandMakeBSON returns.  For an odd number of
    arguments it is the "magic bson" error with the count, whatever the
    arguments are; for an even number it is the "non string" error of the
    first name that is not a string.  In both cases nothing is written. *)
Theorem X6_MakeBSON_error_reported (s : Session) (m : Message) :
  (forall args,
     Nat.odd (length args) = true ->
     RespondToCommandMakeBSON s m args
     = Some (Some (fmt_Errorf ("magic bson has to be even # of args, got "
                               ++ decimal (Z.of_nat (length args)))),
             conn s)) /\
  (forall good v rest,
     well_formed_args good ->
     (forall name, v <> IString name) ->
     Nat.odd (length rest) = true ->
     RespondToCommandMakeBSON s m (good ++ v :: rest)
     = Some (Some (fmt_Errorf ("got a non string for bson name: " ++ verb_t v)),
             conn s)).
Proof.
  split.
  - intros args Hodd.
    unfold RespondToCommandMakeBSON, RespondToCommandMakeBSON_doc.
    rewrite (odd_length_mod2 _ Hodd); reflexivity.
  - intros good v rest Hwf Hv Hodd.
    unfold RespondToCommandMakeBSON, RespondToCommandMakeBSON_doc.
    rewrite even_length_mod2.
    + now rewrite RespondToCommandMakeBSON_loop_first_non_string.
    + rewrite length_app, Nat.even_add; cbn [length].
      rewrite Nat.even_succ, Hodd, (proj1 Hwf); reflexivity.
Qed.

(** X7: RespondToCommandMakeBSON assembles a document, and goes on to
    convert and send it, exactly for the well-formed argument lists: an
    even number of arguments with a string at every even index. *)
Theorem X7_MakeBSON_document_iff_well_formed (args : list iface) :
  (exists doc, RespondToCommandMakeBSON_doc args = Some (Ok doc)) <->
  well_formed_args args.
Proof.
  split.
  - intros (doc & Hdoc); unfold RespondToCommandMakeBSON_doc in Hdoc.
    destruct (Nat.even (length args)) eqn:Hlen.
    + rewrite (even_length_mod2 _ Hlen) in Hdoc.
      destruct (RespondToCommandMakeBSON_loop args [] false) eqn:Hloop;
        try discriminate.
      eapply RespondToCommandMakeBSON_loop_done_well_formed; eassumption.
    + rewrite odd_length_mod2 in Hdoc; [discriminate|].
      now rewrite <- Nat.negb_even, Hlen.
  - intros Hwf; eexists; apply RespondToCommandMakeBSON_doc_well_formed, Hwf.
Qed.

End MakeBSONFurther.

(** * Further properties of the server lifecycle *)

(** The certificate loop loads the pairs in order and stops at the first
    pair that fails. *)
Lemma Run_loadCerts_spec (env : Env) (pairs : list SSLPair) :
  forall certs,
    match Run_loadCerts env pairs certs with
    | Ok all =>
        exists loaded, all = (certs ++ loaded)%list /\
                       Forall2 (loads env) pairs loaded
    | Err returnErr =>
        exists good loaded p rest err,
          pairs = (good ++ p :: rest)%list /\
          Forall2 (loads env) good loaded /\
          tls_LoadX509KeyPair env (CertFile p) (KeyFile p) = Err err /\
          returnErr = fmt_Errorf ("cannot LoadX509KeyPair from " ++ CertFile p
                                  ++ " " ++ KeyFile p ++ " " ++ Error err)
    end.
Proof.
  induction pairs as [|p rest IH]; intros certs; cbn [Run_loadCerts].
  - exists []; split; [now rewrite app_nil_r | constructor].
  - destruct (tls_LoadX509KeyPair env (CertFile p) (KeyFile p)) as [cer|err] eqn:Hp.
    + specialize (IH (certs ++ [cer])%list).
      destruct (Run_loadCerts env rest (certs ++ [cer])) as [all|returnErr].
      * destruct IH as (loaded & -> & Hall).
        exists (cer :: loaded); split; [now rewrite <- app_assoc|].
        constructor; assumption.
      * destruct IH as (good & loaded & q & rest' & err & -> & Hgood & Hq & ->).
        exists (p :: good), (cer :: loaded), q, rest', err.
        repeat split; auto; try (constructor; assumption).
    + exists [], [], p, rest, err; repeat split; auto; try constructor.
Qed.

(** X8: the TLS configuration that Run builds.  With TLS off there is none
    and no key pair is looked at.  With TLS on it holds one certificate per
    configured pair, loaded in the configured order, and the configured
    minimum version; building it fails when no pair is configured, with the
    "no ssl keys configured" error, and when a pair does not load, with an
    error naming the first such pair. *)
Theorem X8_Run_tlsConfig_built (env : Env) (cfg : ServerConfig) :
  match Run_tlsConfig env cfg with
  | Ok None => UseSSL cfg = false
  | Ok (Some tlsConfig) =>
      UseSSL cfg = true /\ SSLKeys cfg <> [] /\
      Forall2 (loads env) (SSLKeys cfg) (Certificates tlsConfig) /\
      MinVersion tlsConfig = MinTlsVersion cfg
  | Err returnErr =>
      UseSSL cfg = true /\
      ((SSLKeys cfg = [] /\ returnErr = fmt_Errorf "no ssl keys configured") \/
       exists good loaded p rest err,
         SSLKeys cfg = (good ++ p :: rest)%list /\
         Forall2 (loads env) good loaded /\
         tls_LoadX509KeyPair env (CertFile p) (KeyFile p) = Err err /\
         returnErr = fmt_Errorf ("cannot LoadX509KeyPair from " ++ CertFile p
                                 ++ " " ++ KeyFile p ++ " " ++ Error err))
  end.
Proof.
  unfold Run_tlsConfig.
  destruct (UseSSL cfg); [|reflexivity].
  destruct (SSLKeys cfg) as [|p keys] eqn:Hkeys; cbn [length Nat.eqb].
  - split; auto.
  - pose proof (Run_loadCerts_spec env (p :: keys) []) as H.
    destruct (Run_loadCerts env (p :: keys) []) as [all|returnErr].
    + destruct H as (loaded & -> & Hall); cbn [app Certificates MinVersion].
      repeat split; [discriminate | exact Hall |].
      destruct (Z.eqb_spec (MinTlsVersion cfg) 0) as [->|]; reflexivity.
    + split; [reflexivity | right; exact H].
Qed.

(** What one run of the accept loop does to the world, whatever the
    events: it starts one session per connection accepted before the loop
    stops, in order, and touches nothing else but the note of the shutdown
    request; it is blocked when every event is a successful accept, returns
    nil at a shutdown request, and returns an error at a failed accept. *)
Lemma Run_acceptLoop_effect (cfg : ServerConfig) (tlsConfig : option tls_Config)
    (err : option error) (events : list select_event) :
  forall w, exists tasks w',
    Forall2 (session_of cfg tlsConfig) (accepted_before_stop events) tasks /\
    spawned w' = (spawned w ++ tasks)%list /\
    listenerOpen w' = listenerOpen w /\
    config (srv w') = config (srv w) /\
    initChan (srv w') = initChan (srv w) /\
    doneChan (srv w') = doneChan (srv w) /\
    Addr (srv w') = Addr (srv w) /\
    ((Run_acceptLoop cfg tlsConfig err events w = Blocked w' /\
      killChan (srv w') = killChan (srv w) /\
      nth_error events (length (accepted_before_stop events)) = None) \/
     (Run_acceptLoop cfg tlsConfig err events w = Returned None w' /\
      closed (killChan (srv w')) = true /\
      nth_error events (length (accepted_before_stop events)) = Some KillSignal) \/
     (exists c e,
        Run_acceptLoop cfg tlsConfig err events w
        = Returned (Some (NewStackErrorf ("could not accept in proxy: "
                                          ++ verb_s_error err))) w' /\
        killChan (srv w') = killChan (srv w) /\
        nth_error events (length (accepted_before_stop events))
        = Some (IncomingConnection {| accepted_conn := c; accepted_err := Some e |}))).
Proof.
  induction events as [|ev rest IH]; intros w.
  - exists [], w; cbn; rewrite app_nil_r.
    split; [constructor|]; repeat (split; [reflexivity|]).
    left; repeat split.
  - destruct ev as [|[c [e|]]].
    + exists [],
        {| srv := set_killChan {| buffer := buffer (killChan (srv w));
                                  capacity := capacity (killChan (srv w));
                                  closed := true |} (srv w);
           listenerOpen := listenerOpen w;
           spawned := spawned w |}.
      cbn; rewrite app_nil_r.
      split; [constructor|]; repeat (split; [reflexivity|]).
      right; left; repeat split.
    + exists [], w; cbn; rewrite app_nil_r.
      split; [constructor|]; repeat (split; [reflexivity|]).
      right; right; exists c, e; repeat split.
    + cbn [Run_acceptLoop accepted_err accepted_conn accepted_before_stop length nth_error].
      unfold bind at 1, go_Run at 1.
      match goal with |- context [Run_acceptLoop _ _ _ rest ?w1] =>
        destruct (IH w1) as (tasks & w' & Htasks & Hsp & Hl & Hc & Hi & Hd & Ha & Hout)
      end.
      cbn [spawned listenerOpen srv] in Hsp, Hl, Hc, Hi, Hd, Ha, Hout.
      exists ({| task_remoteAddr :=
                   RemoteAddr (if UseSSL cfg
                               then tls_Server (Run_keepAlive cfg c) tlsConfig
                               else Run_keepAlive cfg c);
                 task_loggerPrefix :=
                   "Session " ++
                   RemoteAddr (if UseSSL cfg
                               then tls_Server (Run_keepAlive cfg c) tlsConfig
                               else Run_keepAlive cfg c);
                 task_conn := if UseSSL cfg
                              then tls_Server (Run_keepAlive cfg c) tlsConfig
                              else Run_keepAlive cfg c |} :: tasks), w'.
      split; [constructor; [|exact Htasks]|].
      * clear; unfold session_of, Run_keepAlive, tls_Server; cbn.
        destruct (UseSSL cfg), (0 <? TCPKeepAlivePeriod cfg), (isTCPConn c);
          cbn; repeat split.
      * rewrite Hsp, <- app_assoc; cbn [app].
        repeat (split; [auto; fail|]).
        destruct Hout as [H|[H|(c' & e' & H)]];
          [left | right; left | right; right; exists c', e']; exact H.
Qed.

(** Everything a run of [Run] on a new server does once the listener is
    bound. *)
Lemma Run_started_effect (env : Env) (cfg : ServerConfig)
    (tlsConfig : option tls_Config) (ln : net_Listener)
    (events : list select_event) :
  Run_tlsConfig env cfg = Ok tlsConfig ->
  net_Listen env "tcp" (BindHost cfg ++ ":" ++ verb_d (BindPort cfg)) = Ok ln ->
  let stop := nth_error events (length (accepted_before_stop events)) in
  match Run env events (initial_world (NewServer cfg)) with
  | Blocked w =>
      Forall2 (session_of cfg tlsConfig) (accepted_before_stop events) (spawned w) /\
      Addr (srv w) = Some (ln_Addr ln) /\
      listenerOpen w = true /\
      initChan (srv w) = {| buffer := [None]; capacity := 1; closed := false |} /\
      doneChan (srv w) = make_chan unit 0 /\
      killChan (srv w) = make_chan unit 0 /\
      stop = None
  | Returned r w =>
      Forall2 (session_of cfg tlsConfig) (accepted_before_stop events) (spawned w) /\
      Addr (srv w) = Some (ln_Addr ln) /\
      listenerOpen w = false /\
      initChan (srv w) = {| buffer := [None]; capacity := 1; closed := true |} /\
      doneChan (srv w) = {| buffer := []; capacity := 0; closed := true |} /\
      ((r = None /\ closed (killChan (srv w)) = true /\ stop = Some KillSignal) \/
       (r = Some (NewStackErrorf "could not accept in proxy: %!s(<nil>)") /\
        killChan (srv w) = make_chan unit 0 /\
        exists c e, stop = Some (IncomingConnection
                                   {| accepted_conn := c; accepted_err := Some e |})))
  | Panicked _ => False
  end.
Proof.
  intros Htls Hln; cbv zeta; rewrite (Run_startup_ok env cfg events Htls Hln).
  destruct (Run_acceptLoop_effect cfg tlsConfig None events (listening_world cfg ln))
    as (tasks & w' & Htasks & Hsp & Hl & Hc & Hi & Hd & Ha & Hout).
  cbn [listening_world spawned listenerOpen srv config initChan doneChan Addr
       killChan app] in Hsp, Hl, Hc, Hi, Hd, Ha, Hout.
  unfold defer at 1 2 3.
  destruct Hout as [(-> & Hk & Hstop)|[(-> & Hk & Hstop)|(c & e & -> & Hk & Hstop)]].
  - rewrite Hsp, Hl, Hi, Hd, Ha, Hk; auto 10.
  - unfold set_listenerOpen, on_chan; cbn [srv listenerOpen].
    rewrite Hd; cbn. rewrite Hi; cbn. rewrite Hsp, Ha.
    repeat (split; [auto; fail|]). left; auto.
  - unfold set_listenerOpen, on_chan; cbn [srv listenerOpen].
    rewrite Hd; cbn. rewrite Hi; cbn. rewrite Hsp, Ha, Hk.
    repeat (split; [auto; fail|]). right; eauto.
Qed.

(** Every start-up failure, run to its end. *)
Lemma Run_failed_effect (env : Env) (cfg : ServerConfig)
    (events : list select_event) (returnErr : error) :
  Run_tlsConfig env cfg = Err returnErr \/
  (exists tlsConfig err,
      Run_tlsConfig env cfg = Ok tlsConfig /\
      net_Listen env "tcp" (BindHost cfg ++ ":" ++ verb_d (BindPort cfg)) = Err err /\
      returnErr = NewStackErrorf ("cannot start listening in proxy: " ++ Error err)) ->
  Run env events (initial_world (NewServer cfg))
  = Returned (Some returnErr)
      {| srv := {| config := cfg;
                   killChan := make_chan unit 0;
                   initChan := {| buffer := [Some returnErr]; capacity := 1;
                                  closed := true |};
                   doneChan := make_chan unit 0;
                   Addr := None |};
         listenerOpen := false;
         spawned := [] |}.
Proof.
  intros [Htls|(tlsConfig & err & Htls & Hln & ->)];
    unfold Run; cbn [initial_world NewServer srv config];
    rewrite Htls; [|rewrite Hln]; reflexivity.
Qed.

(** X9: the ready signal of a new server.  Run never panics and delivers
    exactly one value on the ready channel: nil once the listener is bound
    and its address recorded, and otherwise the very error that Run returns,
    in which case no address is recorded, no socket is left open and no
    session is started.  The channel is closed when Run returns. *)
Theorem X9_Run_ready_signal (env : Env) (cfg : ServerConfig)
    (events : list select_event) :
  match Run env events (initial_world (NewServer cfg)) with
  | Returned r w =>
      exists v,
        InitChannel (srv w) = {| buffer := [v]; capacity := 1; closed := true |} /\
        ((v = None /\ Addr (srv w) <> None) \/
         (v = r /\ r <> None /\ Addr (srv w) = None /\
          listenerOpen w = false /\ spawned w = []))
  | Blocked w =>
      InitChannel (srv w) = {| buffer := [None]; capacity := 1; closed := false |} /\
      Addr (srv w) <> None /\ listenerOpen w = true
  | Panicked _ => False
  end.
Proof.
  destruct (Run_tlsConfig env cfg) as [tlsConfig|returnErr] eqn:Htls.
  - destruct (net_Listen env "tcp" (BindHost cfg ++ ":" ++ verb_d (BindPort cfg)))
      as [ln|err] eqn:Hln.
    + pose proof (Run_started_effect env cfg events Htls Hln) as H; cbv zeta in H.
      destruct (Run env events (initial_world (NewServer cfg))) as [r w|w|w];
        [| |exact H].
      * destruct H as (_ & Ha & _ & Hi & _).
        exists None; split; [exact Hi|]. left; split; congruence.
      * destruct H as (_ & Ha & Hl & Hi & _); unfold InitChannel.
        repeat split; congruence.
    + rewrite (Run_failed_effect env cfg events
                 (returnErr := NewStackErrorf ("cannot start listening in proxy: "
                                               ++ Error err))) by eauto 6.
      eexists; split; [reflexivity|]. right; repeat split; discriminate.
  - rewrite (Run_failed_effect env cfg events (returnErr := returnErr)) by auto.
    eexists; split; [reflexivity|]. right; repeat split; discriminate.
Qed.

(** X10: the end of a Run that started.  On a new server whose listener
    was bound, Run never panics; whenever it returns it has closed the
    listening socket and closed the done channel, and it returns nil exactly
    when the shutdown request has been seen; as long as it is blocked in the
    accept loop the socket is open and the done channel is not closed. *)
Theorem X10_Run_exit_after_start (env : Env) (cfg : ServerConfig)
    (tlsConfig : option tls_Config) (ln : net_Listener)
    (events : list select_event) :
  Run_tlsConfig env cfg = Ok tlsConfig ->
  net_Listen env "tcp" (BindHost cfg ++ ":" ++ verb_d (BindPort cfg)) = Ok ln ->
  match Run env events (initial_world (NewServer cfg)) with
  | Returned r w =>
      listenerOpen w = false /\
      doneChan (srv w) = {| buffer := []; capacity := 0; closed := true |} /\
      ((r = None) <-> (closed (killChan (srv w)) = true))
  | Blocked w =>
      listenerOpen w = true /\
      closed (doneChan (srv w)) = false /\
      closed (killChan (srv w)) = false
  | Panicked _ => False
  end.
Proof.
  intros Htls Hln.
  pose proof (Run_started_effect env cfg events Htls Hln) as H; cbv zeta in H.
  destruct (Run env events (initial_world (NewServer cfg))) as [r w|w|w];
    [| |exact H].
  - destruct H as (_ & _ & Hl & _ & Hd & [(-> & Hk & _)|(-> & Hk & _)]);
      repeat split; auto; rewrite Hk; discriminate.
  - destruct H as (_ & _ & Hl & _ & Hd & Hk & _).
    rewrite Hd, Hk; auto.
Qed.

(** X11: Close after Run has returned, on a new server.  It completes when
    Run returned an accept error; it blocks for ever when Run failed to
    start; and it panics, closing the kill channel a second time, when Run
    returned nil, which it only does on the shutdown request of an earlier
    Close. *)
Theorem X11_Close_after_Run (env : Env) (cfg : ServerConfig)
    (events : list select_event) (r : option error) (w : World) :
  Run env events (initial_world (NewServer cfg)) = Returned r w ->
  match Close w with
  | Returned _ w' =>
      Addr (srv w) <> None /\ r <> None /\ closed (killChan (srv w')) = true
  | Blocked w' =>
      Addr (srv w) = None /\ r <> None /\ closed (doneChan (srv w')) = false
  | Panicked _ =>
      Addr (srv w) <> None /\ r = None
  end.
Proof.
  intros Hrun.
  destruct (Run_tlsConfig env cfg) as [tlsConfig|returnErr] eqn:Htls.
  - destruct (net_Listen env "tcp" (BindHost cfg ++ ":" ++ verb_d (BindPort cfg)))
      as [ln|err] eqn:Hln.
    + pose proof (Run_started_effect env cfg events Htls Hln) as H; cbv zeta in H.
      rewrite Hrun in H.
      destruct H as (_ & Ha & _ & _ & Hd & [(-> & Hk & _)|(-> & Hk & _)]);
        unfold Close, bind, on_chan, chan_close, chan_recv.
      * rewrite Hk; split; congruence.
      * rewrite Hk; cbn. rewrite Hd; cbn. repeat split; congruence.
    + rewrite (Run_failed_effect env cfg events
                 (returnErr := NewStackErrorf ("cannot start listening in proxy: "
                                               ++ Error err))) in Hrun by eauto 6.
      injection Hrun as <- <-; cbn. repeat split; discriminate.
  - rewrite (Run_failed_effect env cfg events (returnErr := returnErr)) in Hrun by auto.
    injection Hrun as <- <-; cbn. repeat split; discriminate.
Qed.

(** X12: Close cannot be called twice: after a Close that completed, a
    second Close panics on the kill channel, which is already closed. *)
Theorem X12_Close_twice_panics (w w' : World) :
  Close w = Returned tt w' ->
  exists w'', Close w' = Panicked w''.
Proof.
  unfold Close, bind, on_chan, chan_close, chan_recv.
  destruct (closed (killChan (srv w))) eqn:Hk; [discriminate|]; cbn.
  destruct (buffer (doneChan (srv w))) as [|v b].
  - destruct (closed (doneChan (srv w))); [|discriminate]; cbn.
    intros H; injection H as <-; cbn. eauto.
  - cbn; intros H; injection H as <-; cbn. eauto.
Qed.

(** X13: a server cannot be run twice.  On a server whose ready channel is
    closed, as it is once Run has returned, Run panics on every path, having
    started no session and fired no done signal; and when the bind succeeds
    the listening socket is left open. *)
Theorem X13_Run_twice_panics (env : Env) (events : list select_event) (w : World) :
  closed (initChan (srv w)) = true ->
  exists w',
    Run env events w = Panicked w' /\
    spawned w' = spawned w /\
    doneChan (srv w') = doneChan (srv w) /\
    (forall tlsConfig ln,
       Run_tlsConfig env (config (srv w)) = Ok tlsConfig ->
       net_Listen env "tcp" (BindHost (config (srv w)) ++ ":"
                             ++ verb_d (BindPort (config (srv w)))) = Ok ln ->
       listenerOpen w' = true /\ Addr (srv w') = Some (ln_Addr ln)).
Proof.
  intros Hclosed; unfold Run; cbv zeta.
  destruct (Run_tlsConfig env (config (srv w))) as [tlsConfig|returnErr].
  - destruct (net_Listen env "tcp" _) as [ln|err].
    + unfold defer at 1, bind, set_listenerOpen, modify_srv, on_chan, chan_send, chan_close.
      cbn. rewrite Hclosed; cbn. rewrite Hclosed; cbn.
      eexists; split; [reflexivity|]; split; [reflexivity|]; split; [reflexivity|].
      intros tc l _ H2; injection H2 as <-; split; reflexivity.
    + unfold defer, bind, on_chan, chan_send, chan_close; cbn.
      rewrite Hclosed; cbn. rewrite Hclosed; cbn.
      eexists; split; [reflexivity|]; split; [reflexivity|]; split; [reflexivity|].
      intros tc l _ H2; discriminate.
  - unfold defer, bind, on_chan, chan_send, chan_close; cbn.
    rewrite Hclosed; cbn. rewrite Hclosed; cbn.
    eexists; split; [reflexivity|]; split; [reflexivity|]; split; [reflexivity|].
    intros tc l H1; discriminate.
Qed.

(** X14: the sessions of a server that started, and how its Run ends.  One
    session task is started for each connection accepted before the loop
    stops, in order, with the remote address of the connection, the logger
    prefix "Session <address>", the TLS server transport when TLS is on,
    and keep-alive switched on with the configured period exactly when the
    period is positive and the connection is a TCP connection.  Run is
    blocked when every event is a successful accept, returns nil at the
    first shutdown request and an error at the first failed accept; events
    after that are not looked at. *)
Theorem X14_Run_sessions (env : Env) (cfg : ServerConfig)
    (tlsConfig : option tls_Config) (ln : net_Listener)
    (events : list select_event) :
  Run_tlsConfig env cfg = Ok tlsConfig ->
  net_Listen env "tcp" (BindHost cfg ++ ":" ++ verb_d (BindPort cfg)) = Ok ln ->
  let stop := nth_error events (length (accepted_before_stop events)) in
  match Run env events (initial_world (NewServer cfg)) with
  | Blocked w =>
      Forall2 (session_of cfg tlsConfig) (accepted_before_stop events) (spawned w) /\
      stop = None
  | Returned r w =>
      Forall2 (session_of cfg tlsConfig) (accepted_before_stop events) (spawned w) /\
      ((r = None /\ stop = Some KillSignal) \/
       (r <> None /\
        exists c e, stop = Some (IncomingConnection
                                   {| accepted_conn := c; accepted_err := Some e |})))
  | Panicked _ => False
  end.
Proof.
  intros Htls Hln; cbv zeta.
  pose proof (Run_started_effect env cfg events Htls Hln) as H; cbv zeta in H.
  destruct (Run env events (initial_world (NewServer cfg))) as [r w|w|w];
    [| |exact H].
  - destruct H as (Hs & _ & _ & _ & _ & [(-> & _ & Hstop)|(-> & _ & Hstop)]);
      split; auto.
    right; split; [discriminate | exact Hstop].
  - destruct H as (Hs & _ & _ & _ & _ & _ & Hstop); auto.
Qed.

(** * Properties of Session.Run *)

Lemma string_length_append (s1 s2 : string) :
  String.length (s1 ++ s2) = (String.length s1 + String.length s2)%nat.
Proof. induction s1 as [|c s1 IH]; cbn; [reflexivity | now rewrite IH]. Qed.

Lemma substring_whole (s : string) : substring 0 (String.length s) s = s.
Proof. induction s as [|c s IH]; cbn; [reflexivity | now rewrite IH]. Qed.

Lemma substring_append_left (s1 s2 : string) :
  substring 0 (String.length s1) (s1 ++ s2) = s1.
Proof.
  induction s1 as [|c s1 IH]; cbn; [now destruct s2 | now rewrite IH].
Qed.

Lemma substring_append_right (s1 s2 : string) :
  substring (String.length s1) (String.length s2) (s1 ++ s2) = s2.
Proof.
  induction s1 as [|c s1 IH]; cbn; [apply substring_whole | exact IH].
Qed.

(** [strings.TrimSuffix] takes off a suffix that is there. *)
Lemma strings_TrimSuffix_append (base suffix : string) :
  strings_TrimSuffix (base ++ suffix) suffix = base.
Proof.
  unfold strings_TrimSuffix, strings_HasSuffix.
  rewrite string_length_append.
  replace (String.length base + String.length suffix - String.length suffix)%nat
    with (String.length base) by lia.
  rewrite substring_append_right, String.eqb_refl, substring_append_left.
  replace (String.length suffix <=? String.length base + String.length suffix)%nat
    with true by (symmetry; apply Nat.leb_le; lia).
  reflexivity.
Qed.

Lemma Forall2_In_right {A B : Type} (R : A -> B -> Prop) (l1 : list A) (l2 : list B) :
  Forall2 R l1 l2 -> forall b, In b l2 -> exists a, In a l1 /\ R a b.
Proof.
  induction 1 as [|a b l1 l2 Hab _ IH]; intros b' [].
  - subst; exists a; split; [left; reflexivity | exact Hab].
  - destruct (IH b' H) as (a' & Ha' & HR); exists a'; split; [right|]; assumption.
Qed.

Ltac session_paths peer factory remote conn :=
  unfold Session_Run, Session_Run_worker;
  destruct (tlsServer conn) as [?tc|];
  [destruct (Handshake peer) as [?herr|]|];
  try match goal with
      | |- context [CreateWorker factory remote ?n] =>
          destruct (CreateWorker factory remote n) as [[[]]|?cerr]
      end;
  cbn.

(** X15: Session.Run closes the connection on every path on which it ends,
    be it a failed handshake, a refused worker, a worker loop that returns
    or one that panics: closing the connection is then the last thing it
    does, and it does it once.  While the worker loop is still running the
    connection is not closed. *)
Theorem X15_Session_Run_closes_conn (peer : tls_Peer) (factory : ServerWorkerFactory)
    (remote name0 : string) (conn : net_Conn) :
  let r := Session_Run peer factory remote name0 conn in
  match run_end r with
  | CallBlocks => ~ In EvConnClose (run_events r)
  | _ => exists before,
           run_events r = (before ++ [EvConnClose])%list /\
           ~ In EvConnClose before
  end.
Proof.
  cbv zeta; session_paths peer factory remote conn;
    try (intuition discriminate);
    match goal with
    | |- exists before, ?l = _ /\ _ =>
        exists (removelast l); cbn; split; [reflexivity | intuition discriminate]
    end.
Qed.

(** X16: Session.Run closes the worker exactly when it has run its loop and
    the loop has ended, by return or by panic: the run then ends with the
    loop, the close of the worker, the "socket closed" log line and the
    close of the connection, in this order.  A run that never started the
    loop never closes a worker. *)
Theorem X16_Session_Run_worker_close (peer : tls_Peer) (factory : ServerWorkerFactory)
    (remote name0 : string) (conn : net_Conn) :
  let r := Session_Run peer factory remote name0 conn in
  match run_end r with
  | CallBlocks =>
      (exists before, run_events r = (before ++ [EvDoLoopTemp])%list) /\
      ~ In EvWorkerClose (run_events r)
  | _ =>
      (exists before,
         run_events r = (before ++ [EvDoLoopTemp; EvWorkerClose;
                                    EvLogf INFO "socket closed"; EvConnClose])%list /\
         ~ In EvDoLoopTemp before /\ ~ In EvWorkerClose before) \/
      (~ In EvDoLoopTemp (run_events r) /\ ~ In EvWorkerClose (run_events r))
  end.
Proof.
  cbv zeta; session_paths peer factory remote conn;
    try (right; split; intuition discriminate);
    try (split; [|intuition discriminate]);
    try left;
    match goal with
    | |- exists before, ?l = (before ++ [EvDoLoopTemp])%list =>
        exists (removelast l); reflexivity
    | |- exists before, ?l = (before ++ [_; _; _; _])%list /\ _ =>
        exists (removelast (removelast (removelast (removelast l)))); cbn;
        split; [reflexivity | split; intuition discriminate]
    end.
Qed.

(** X17: Session.Run asks the factory for a worker exactly when the
    handshake has not failed, that is on a connection without TLS or after
    a handshake that succeeded; the factory is then asked once, with the
    server name the session ends with.  After a failed handshake the
    session's server name is what it was. *)
Theorem X17_Session_Run_worker_creation (peer : tls_Peer) (factory : ServerWorkerFactory)
    (remote name0 : string) (conn : net_Conn) :
  let r := Session_Run peer factory remote name0 conn in
  ((exists rem n, In (EvCreateWorker rem n) (run_events r)) <->
   (tlsServer conn = None \/ Handshake peer = None)) /\
  (forall rem n, In (EvCreateWorker rem n) (run_events r) ->
                 rem = remote /\ n = run_SSLServerName r) /\
  (tlsServer conn <> None -> Handshake peer <> None ->
   run_SSLServerName r = name0 /\ run_end r = CallReturns).
Proof.
  cbv zeta; session_paths peer factory remote conn;
    (split; [split|split]);
    try (intros [H|H]; discriminate H);
    try (intros _; auto; fail);
    try (intros _; do 2 eexists; cbn; eauto 8; fail);
    try (intros (rem & n & H); cbn in H; intuition discriminate);
    try (intros rem n H; cbn in H;
         repeat match type of H with
                | _ \/ _ => destruct H as [H|H]
                end; try discriminate; try contradiction;
         injection H as <- <-; auto);
    try (intros H1 H2; congruence).
Qed.

(** X18: the server name a session captures.  After a successful handshake
    on a TLS connection the session's server name is the name the client
    presented with one trailing "." taken off, if there is one; on a
    connection without TLS no handshake is done and the name is what it
    was. *)
Theorem X18_Session_Run_server_name (peer : tls_Peer) (factory : ServerWorkerFactory)
    (remote name0 : string) (conn : net_Conn) :
  let r := Session_Run peer factory remote name0 conn in
  (tlsServer conn <> None -> Handshake peer = None ->
   (forall base, ServerName peer = base ++ "." -> run_SSLServerName r = base) /\
   (strings_HasSuffix (ServerName peer) "." = false ->
    run_SSLServerName r = ServerName peer) /\
   exists rest, run_events r = EvHandshake :: rest) /\
  (tlsServer conn = None ->
   run_SSLServerName r = name0 /\ ~ In EvHandshake (run_events r)).
Proof.
  cbv zeta; split.
  - intros Htls Hhs.
    assert (Hname : run_SSLServerName (Session_Run peer factory remote name0 conn)
                    = strings_TrimSuffix (ServerName peer) ".").
    { session_paths peer factory remote conn; congruence. }
    repeat split.
    + intros base Hbase; rewrite Hname, Hbase; apply strings_TrimSuffix_append.
    + intros Hno; rewrite Hname; unfold strings_TrimSuffix; now rewrite Hno.
    + session_paths peer factory remote conn; try congruence; eauto.
  - intros Htls; session_paths peer factory remote conn; try congruence;
      split; try reflexivity; intuition discriminate.
Qed.

(** X19: the sessions of a TLS server handshake first.  Every session task
    started by a server that has TLS on holds a TLS connection, so its run
    begins with the handshake, before anything is logged and before the
    factory is asked for a worker; if the handshake fails the run ends
    without a worker. *)
Theorem X19_TLS_server_sessions_handshake (env : Env) (cfg : ServerConfig)
    (tlsConfig : option tls_Config) (ln : net_Listener)
    (events : list select_event) (peer : tls_Peer) (factory : ServerWorkerFactory) :
  Run_tlsConfig env cfg = Ok tlsConfig ->
  net_Listen env "tcp" (BindHost cfg ++ ":" ++ verb_d (BindPort cfg)) = Ok ln ->
  UseSSL cfg = true ->
  match Run env events (initial_world (NewServer cfg)) with
  | Returned _ w | Blocked w =>
      Forall (fun t =>
                exists rest,
                  run_events (run_task peer factory t) = EvHandshake :: rest /\
                  (Handshake peer <> None ->
                   forall rem n, ~ In (EvCreateWorker rem n) rest))
             (spawned w)
  | Panicked _ => False
  end.
Proof.
  intros Htls Hln Hssl.
  assert (Hsome : exists tc, tlsConfig = Some tc).
  { destruct tlsConfig as [tc|]; [eauto|].
    unfold Run_tlsConfig in Htls; rewrite Hssl in Htls.
    destruct (length (SSLKeys cfg) =? 0)%nat; [discriminate|].
    destruct (Run_loadCerts env (SSLKeys cfg) []); discriminate. }
  destruct Hsome as [tc ->].
  assert (Htask : forall tasks,
            Forall2 (session_of cfg (Some tc)) (accepted_before_stop events) tasks ->
            Forall (fun t =>
                      exists rest,
                        run_events (run_task peer factory t) = EvHandshake :: rest /\
                        (Handshake peer <> None ->
                         forall rem n, ~ In (EvCreateWorker rem n) rest))
                   tasks).
  { intros tasks H; apply Forall_forall; intros t Ht.
    destruct (Forall2_In_right H t Ht) as (c & _ & _ & _ & _ & Htc & _).
    rewrite Hssl in Htc; unfold run_task.
    generalize (task_remoteAddr t), (task_conn t), Htc; clear.
    intros remote conn Htc.
    unfold Session_Run, Session_Run_worker; rewrite Htc.
    destruct (Handshake peer) as [herr|].
    - eexists; split; [reflexivity|].
      intros _ rem n H; cbn in H; intuition discriminate.
    - destruct (CreateWorker factory remote _) as [[[]]|cerr]; cbn;
        eexists; (split; [reflexivity | congruence]). }
  pose proof (Run_started_effect env cfg events Htls Hln) as H; cbv zeta in H.
  destruct (Run env events (initial_world (NewServer cfg))) as [r w|w|w];
    [| |exact H]; apply Htask, H.
Qed.

(** * Concrete runs of the further properties *)

Lemma X1_witness :
  OpCode (Header (request OP_QUERY 5)) <> OP_GET_MORE /\
  RespondWithError fresh_session (request OP_QUERY 5) None
  = RespondToCommand fresh_session (request OP_QUERY 5)
      ([ {| Name := "ok"; Value := IInt 1 |} ] : @SimpleBSON plain_codec).
Proof.
  assert (H : OpCode (Header (request OP_QUERY 5)) <> OP_GET_MORE) by discriminate.
  split; [exact H|].
  exact (@X1_RespondWithError_is_RespondToCommand plain_codec fresh_session
           (request OP_QUERY 5) None H).
Defined.

Lemma X2_witness :
  OpCode (Header (request OP_MSG 9)) = OP_MSG /\
  forall doc : @SimpleBSON plain_codec,
    sends fresh_session (msg_reply_of 9 doc)
          (RespondToCommand fresh_session (request OP_MSG 9) doc).
Proof.
  split; [reflexivity|].
  exact (proj1 (@X2_respond_MSG_one_body_section plain_codec fresh_session
                  (request OP_MSG 9) eq_refl)).
Defined.

Lemma X3_witness :
  ~ In (OpCode (Header (request OP_KILL_CURSORS 4)))
       [OP_QUERY; OP_GET_MORE; OP_INSERT; OP_UPDATE; OP_DELETE; OP_COMMAND; OP_MSG] /\
  forall doc : @SimpleBSON plain_codec,
    RespondToCommand fresh_session (request OP_KILL_CURSORS 4) doc
    = (Some ErrUnknownOpcode, conn fresh_session).
Proof.
  assert (H : ~ In (OpCode (Header (request OP_KILL_CURSORS 4)))
                   [OP_QUERY; OP_GET_MORE; OP_INSERT; OP_UPDATE; OP_DELETE;
                    OP_COMMAND; OP_MSG])
    by (cbn; intuition discriminate).
  split; [exact H|].
  exact (proj1 (@X3_respond_unknown_opcode plain_codec fresh_session
                  (request OP_KILL_CURSORS 4) H)).
Defined.

Lemma X6_witness :
  well_formed_args [IString "n"; IInt 3] /\
  (forall name, IInt 4 <> IString name) /\
  (forall name, IOther "[]string" "[%!t(string=a)]" <> IString name) /\
  Nat.odd (length [INil]) = true /\
  RespondToCommandMakeBSON fresh_session (request OP_QUERY 5)
    [IString "n"; IInt 3; IInt 4; INil]
  = Some (Some (fmt_Errorf "got a non string for bson name: %!t(int=4)"),
          conn fresh_session) /\
  RespondToCommandMakeBSON fresh_session (request OP_QUERY 5)
    [IString "n"; IInt 3; IOther "[]string" "[%!t(string=a)]"; INil]
  = Some (Some (fmt_Errorf "got a non string for bson name: [%!t(string=a)]"),
          conn fresh_session).
Proof.
  assert (Hv : forall name, IInt 4 <> IString name) by discriminate.
  assert (Hs : forall name, IOther "[]string" "[%!t(string=a)]" <> IString name)
    by discriminate.
  split; [apply well_formed_args_one_pair|]; split; [exact Hv|];
    split; [exact Hs|]; split; [reflexivity|]; split.
  - exact (proj2 (@X6_MakeBSON_error_reported plain_codec fresh_session
                    (request OP_QUERY 5))
             [IString "n"; IInt 3] (IInt 4) [INil]
             (well_formed_args_one_pair "n" (IInt 3)) Hv eq_refl).
  - exact (proj2 (@X6_MakeBSON_error_reported plain_codec fresh_session
                    (request OP_QUERY 5))
             [IString "n"; IInt 3] (IOther "[]string" "[%!t(string=a)]") [INil]
             (well_formed_args_one_pair "n" (IInt 3)) Hs eq_refl).
Defined.

Lemma X10_witness :
  Run_tlsConfig friendly_env plain_config = Ok None /\
  net_Listen friendly_env "tcp"
    (BindHost plain_config ++ ":" ++ verb_d (BindPort plain_config))
  = Ok {| ln_Addr := "127.0.0.1:0" |} /\
  match Run friendly_env [KillSignal] (initial_world (NewServer plain_config)) with
  | Returned r w =>
      listenerOpen w = false /\
      doneChan (srv w) = {| buffer := []; capacity := 0; closed := true |} /\
      ((r = None) <-> (closed (killChan (srv w)) = true))
  | Blocked w =>
      listenerOpen w = true /\
      closed (doneChan (srv w)) = false /\
      closed (killChan (srv w)) = false
  | Panicked _ => False
  end.
Proof.
  split; [reflexivity|]; split; [reflexivity|].
  exact (X10_Run_exit_after_start friendly_env plain_config [KillSignal]
           (tlsConfig := None) (ln := {| ln_Addr := "127.0.0.1:0" |})
           eq_refl eq_refl).
Defined.

Lemma X11_witness :
  exists r w,
    Run friendly_env
      [IncomingConnection {| accepted_conn := tcp_peer;
                             accepted_err := Some (errors_New "too many open files") |}]
      (initial_world (NewServer plain_config))
    = Returned r w /\
    match Close w with
    | Returned _ w' =>
        Addr (srv w) <> None /\ r <> None /\ closed (killChan (srv w')) = true
    | Blocked w' =>
        Addr (srv w) = None /\ r <> None /\ closed (doneChan (srv w')) = false
    | Panicked _ =>
        Addr (srv w) <> None /\ r = None
    end.
Proof.
  do 2 eexists; split; [reflexivity|].
  exact (X11_Close_after_Run friendly_env plain_config
           [IncomingConnection {| accepted_conn := tcp_peer;
                                  accepted_err := Some (errors_New "too many open files") |}]
           eq_refl).
Defined.

Lemma X12_witness :
  let w := initial_world
             {| config := plain_config;
                killChan := make_chan unit 0;
                initChan := {| buffer := [None]; capacity := 1; closed := true |};
                doneChan := {| buffer := []; capacity := 0; closed := true |};
                Addr := Some "127.0.0.1:0" |} in
  exists w', Close w = Returned tt w' /\ exists w'', Close w' = Panicked w''.
Proof.
  cbv zeta; eexists; split; [reflexivity|].
  exact (@X12_Close_twice_panics
           (initial_world
              {| config := plain_config;
                 killChan := make_chan unit 0;
                 initChan := {| buffer := [None]; capacity := 1; closed := true |};
                 doneChan := {| buffer := []; capacity := 0; closed := true |};
                 Addr := Some "127.0.0.1:0" |})
           _ eq_refl).
Defined.

Lemma X13_witness :
  let w := initial_world
             {| config := plain_config;
                killChan := make_chan unit 0;
                initChan := {| buffer := []; capacity := 1; closed := true |};
                doneChan := {| buffer := []; capacity := 0; closed := true |};
                Addr := Some "127.0.0.1:0" |} in
  closed (initChan (srv w)) = true /\
  exists w', Run friendly_env [KillSignal] w = Panicked w' /\ listenerOpen w' = true.
Proof.
  cbv zeta; split; [reflexivity|].
  destruct (X13_Run_twice_panics friendly_env [KillSignal]
              (initial_world
                 {| config := plain_config;
                    killChan := make_chan unit 0;
                    initChan := {| buffer := []; capacity := 1; closed := true |};
                    doneChan := {| buffer := []; capacity := 0; closed := true |};
                    Addr := Some "127.0.0.1:0" |}) eq_refl)
    as (w' & Hrun & _ & _ & Hopen).
  exists w'; split; [exact Hrun|].
  exact (proj1 (Hopen None {| ln_Addr := "127.0.0.1:0" |} eq_refl eq_refl)).
Defined.

Lemma X14_witness :
  Run_tlsConfig friendly_env tls_config_one_key
  = Ok (Some {| Certificates := [ {| CertName := "server.crt" |} ];
                MinVersion := 771 |}) /\
  net_Listen friendly_env "tcp"
    (BindHost tls_config_one_key ++ ":" ++ verb_d (BindPort tls_config_one_key))
  = Ok {| ln_Addr := "127.0.0.1:0" |} /\
  let events := [IncomingConnection {| accepted_conn := tcp_peer; accepted_err := None |};
                 KillSignal;
                 IncomingConnection {| accepted_conn := tcp_peer; accepted_err := None |}] in
  let stop := nth_error events (length (accepted_before_stop events)) in
  match Run friendly_env events (initial_world (NewServer tls_config_one_key)) with
  | Blocked w =>
      Forall2 (session_of tls_config_one_key
                 (Some {| Certificates := [ {| CertName := "server.crt" |} ];
                          MinVersion := 771 |}))
              (accepted_before_stop events) (spawned w) /\
      stop = None
  | Returned r w =>
      Forall2 (session_of tls_config_one_key
                 (Some {| Certificates := [ {| CertName := "server.crt" |} ];
                          MinVersion := 771 |}))
              (accepted_before_stop events) (spawned w) /\
      ((r = None /\ stop = Some KillSignal) \/
       (r <> None /\
        exists c e, stop = Some (IncomingConnection
                                   {| accepted_conn := c; accepted_err := Some e |})))
  | Panicked _ => False
  end.
Proof.
  split; [reflexivity|]; split; [reflexivity|]; cbv zeta.
  exact (X14_Run_sessions friendly_env tls_config_one_key
           [IncomingConnection {| accepted_conn := tcp_peer; accepted_err := None |};
            KillSignal;
            IncomingConnection {| accepted_conn := tcp_peer; accepted_err := None |}]
           (tlsConfig := Some {| Certificates := [ {| CertName := "server.crt" |} ];
                                 MinVersion := 771 |})
           (ln := {| ln_Addr := "127.0.0.1:0" |})
           eq_refl eq_refl).
Defined.

Lemma X19_witness :
  Run_tlsConfig friendly_env tls_config_one_key
  = Ok (Some {| Certificates := [ {| CertName := "server.crt" |} ];
                MinVersion := 771 |}) /\
  net_Listen friendly_env "tcp"
    (BindHost tls_config_one_key ++ ":" ++ verb_d (BindPort tls_config_one_key))
  = Ok {| ln_Addr := "127.0.0.1:0" |} /\
  UseSSL tls_config_one_key = true /\
  match Run friendly_env
          [IncomingConnection {| accepted_conn := tcp_peer; accepted_err := None |};
           KillSignal]
          (initial_world (NewServer tls_config_one_key)) with
  | Returned _ w | Blocked w =>
      Forall (fun t =>
                exists rest,
                  run_events (run_task (obliging_peer "Foo.Example.com.")
                                       simple_factory t)
                  = EvHandshake :: rest /\
                  (Handshake (obliging_peer "Foo.Example.com.") <> None ->
                   forall rem n, ~ In (EvCreateWorker rem n) rest))
             (spawned w)
  | Panicked _ => False
  end.
Proof.
  split; [reflexivity|]; split; [reflexivity|]; split; [reflexivity|].
  exact (X19_TLS_server_sessions_handshake friendly_env tls_config_one_key
           [IncomingConnection {| accepted_conn := tcp_peer; accepted_err := None |};
            KillSignal]
           (obliging_peer "Foo.Example.com.") simple_factory
           (tlsConfig := Some {| Certificates := [ {| CertName := "server.crt" |} ];
                                 MinVersion := 771 |})
           (ln := {| ln_Addr := "127.0.0.1:0" |})
           eq_refl eq_refl eq_refl).
Defined.

(** * The error of a failed bind *)

Lemma prefix_append (s rest : string) : prefix s (s ++ rest) = true.
Proof.
  induction s as [|c s IH]; cbn; [now destruct rest|].
  destruct (ascii_dec c c); [exact IH | congruence].
Qed.

Lemma string_append_empty (s : string) : s ++ "" = s.
Proof. induction s as [|c s IH]; cbn; [reflexivity | now rewrite IH]. Qed.

Lemma contains_of_prefix (needle s : string) :
  prefix needle s = true -> contains needle s = true.
Proof. intros H; destruct s; cbn [contains]; now rewrite H. Qed.

Lemma contains_append (before needle after : string) :
  contains needle (before ++ needle ++ after) = true.
Proof.
  induction before as [|c before IH].
  - cbn [append]; apply contains_of_prefix, prefix_append.
  - cbn [append contains].
    destruct (prefix needle (String c (before ++ needle ++ after)));
      [reflexivity | exact IH].
Qed.

(** X20: a failed bind is reported with its cause.  When the listener
    cannot be bound, Run returns an error whose message is
    "cannot start listening in proxy: " followed by the message of the bind
    error, delivers that same error on the ready channel, and leaves no
    socket open. *)
Theorem X20_Run_bind_failure_wrapped (env : Env) (cfg : ServerConfig)
    (tlsConfig : option tls_Config) (err : error) (events : list select_event) :
  Run_tlsConfig env cfg = Ok tlsConfig ->
  net_Listen env "tcp" (BindHost cfg ++ ":" ++ verb_d (BindPort cfg)) = Err err ->
  exists returnErr w,
    Run env events (initial_world (NewServer cfg)) = Returned (Some returnErr) w /\
    Error returnErr = "cannot start listening in proxy: " ++ Error err /\
    contains (Error err) (Error returnErr) = true /\
    chan_recv (InitChannel (srv w))
    = OpOk (Some (Some returnErr),
            {| buffer := []; capacity := 1; closed := true |}) /\
    listenerOpen w = false.
Proof.
  intros Htls Hln.
  exists (NewStackErrorf ("cannot start listening in proxy: " ++ Error err)).
  eexists; split.
  - apply Run_failed_effect; right; exists tlsConfig, err; auto.
  - cbn [NewStackErrorf errors_New Error]; repeat split.
    rewrite <- (string_append_empty (Error err)) at 2.
    apply contains_append.
Qed.

Lemma X20_witness :
  let env := {| tls_LoadX509KeyPair := fun c _ => Ok {| CertName := c |};
                net_Listen := fun _ _ => Err (errors_New "address already in use") |} in
  Run_tlsConfig env plain_config = Ok None /\
  net_Listen env "tcp" (BindHost plain_config ++ ":" ++ verb_d (BindPort plain_config))
  = Err (errors_New "address already in use") /\
  exists returnErr w,
    Run env [] (initial_world (NewServer plain_config)) = Returned (Some returnErr) w /\
    Error returnErr = "cannot start listening in proxy: address already in use" /\
    contains "address already in use" (Error returnErr) = true.
Proof.
  cbv zeta; split; [reflexivity|]; split; [reflexivity|].
  destruct (X20_Run_bind_failure_wrapped
              {| tls_LoadX509KeyPair := fun c _ => Ok {| CertName := c |};
                 net_Listen := fun _ _ => Err (errors_New "address already in use") |}
              plain_config []
              (tlsConfig := None) (err := errors_New "address already in use")
              eq_refl eq_refl)
    as (returnErr & w & Hrun & Hmsg & Hcontains & _).
  exists returnErr, w; auto.
Defined.
